(** * ulibSD: the SD/MMC block driver of [sd_io.c] over an SPI transport

    A shallow embedding of [sd_io.h] / [sd_io.c].  The driver talks to the
    card through the byte-exchange primitives of [spi_io.h]; every driver
    function is a computation over the state of that transport, and the
    transport keeps a log of the calls it received. *)

From Stdlib Require Import ZArith List Bool Lia.
Import ListNotations.
Local Open Scope Z_scope.

(** ** Machine integers

    [uint8_t], [uint16_t] and [uint32_t] values are integers in [Z];
    every assignment to a variable of such a type wraps explicitly. *)

Definition u8 (x : Z) : Z := x mod 256.
Definition u16 (x : Z) : Z := x mod 65536.
Definition u32 (x : Z) : Z := x mod 4294967296.

(** ** Constants of [sd_io.h] *)

Definition SD_IO_WRITE_TIMEOUT_WAIT : Z := 250.

Definition CMD0 : Z := 0x40 + 0.
Definition CMD1 : Z := 0x40 + 1.
Definition ACMD41 : Z := 0xC0 + 41.
Definition CMD8 : Z := 0x40 + 8.
Definition CMD9 : Z := 0x40 + 9.
Definition CMD16 : Z := 0x40 + 16.
Definition CMD17 : Z := 0x40 + 17.
Definition CMD24 : Z := 0x40 + 24.
Definition CMD42 : Z := 0x40 + 42.
Definition CMD55 : Z := 0x40 + 55.
Definition CMD58 : Z := 0x40 + 58.
Definition CMD59 : Z := 0x40 + 59.

Definition SD_INIT_TRYS : Z := 0x03.

Definition SDCT_MMC : Z := 0x01.
Definition SDCT_SD1 : Z := 0x02.
Definition SDCT_SD2 : Z := 0x04.
Definition SDCT_SDC : Z := Z.lor SDCT_SD1 SDCT_SD2.
Definition SDCT_BLOCK : Z := 0x08.

Definition SD_BLK_SIZE : Z := 512.

Inductive SDRESULTS : Type :=
| SD_OK
| SD_NOINIT
| SD_ERROR
| SD_PARERR
| SD_BUSY
| SD_REJECT
| SD_NORESPONSE.

Record SD_DEV : Type := mkDev {
  mount : Z;
  cardtype : Z;
  last_sector : Z
}.

(** Modelled from the spec: the constants [TRUE], [FALSE] and [HIGH] of
    [spi_io.h], which is not among the sources; the usual 1, 0 and 1. *)
Definition TRUE : Z := 1.
Definition FALSE : Z := 0.
Definition HIGH : Z := 1.

(** ** The transport *)

(** Modelled from the spec: the calls of the transport adapter of
    [spi_io.h], an external collaborator that is not among the sources:
    byte exchange, chip select, clock speed, a millisecond timer with a
    still-running predicate, release.  An event is one call the driver
    made, with what the adapter answered. *)
Inductive event : Type :=
| EvInit
| EvCSLow
| EvCSHigh
| EvFreqLow
| EvFreqHigh
| EvRelease
| EvRW (out inp : Z)
| EvTimerOn (ms : Z)
| EvTimerOff
| EvTimerStatus (running : bool).

(** Modelled from the spec: the state of the transport.  It is the script
    of what the environment will answer: [rx] holds the bytes the card
    clocks in on the next exchanges, and an idle line reads 0xFF once the
    script is over; [tmr] holds the next answers of the still-running
    predicate of the timer, and a script that is over reads as expired.
    [trace] logs every call the driver made, oldest first. *)
Record spi : Type := mkSpi {
  rx : list Z;
  tmr : list bool;
  trace : list event
}.

(** Driver computations: state passing over the transport; [None] is a
    computation that does not return. *)
Definition io (A : Type) : Type := spi -> option (A * spi).

Definition ret {A} (a : A) : io A := fun w => Some (a, w).

Definition bind {A B} (m : io A) (k : A -> io B) : io B :=
  fun w => match m w with
           | Some (a, w') => k a w'
           | None => None
           end.

Declare Scope io_scope.
Delimit Scope io_scope with io.
Notation "x <- m ;; k" := (bind m (fun x => k))
  (at level 61, m at next level, right associativity) : io_scope.
Notation "m ;; k" := (bind m (fun _ => k))
  (at level 61, right associativity) : io_scope.
Local Open Scope io_scope.

Definition emit (e : event) (w : spi) : spi :=
  mkSpi (rx w) (tmr w) (trace w ++ [e]).

Definition call (e : event) : io unit := fun w => Some (tt, emit e w).

(** The byte the card clocks in on the next exchange. *)
Definition next_byte (l : list Z) : Z :=
  match l with
  | [] => 0xFF
  | b :: _ => u8 b
  end.

Definition rw_state (d : Z) (w : spi) : spi :=
  mkSpi (tl (rx w)) (tmr w) (trace w ++ [EvRW d (next_byte (rx w))]).

Definition ts_state (w : spi) : spi :=
  mkSpi (rx w) (tl (tmr w)) (trace w ++ [EvTimerStatus (hd false (tmr w))]).

(** Modelled from the spec: [SPI_RW], the full-duplex exchange of one
    byte; the byte received is the next of the script. *)
Definition SPI_RW (d : Z) : io Z :=
  fun w => Some (next_byte (rx w), rw_state d w).

(** Modelled from the spec: [SPI_Timer_Status], whether the timer still
    runs; the driver only ever compares its result with [TRUE]. *)
Definition SPI_Timer_Status : io bool :=
  fun w => Some (hd false (tmr w), ts_state w).

(** Modelled from the spec: the calls of [spi_io.h] that return nothing.
    What the adapter does on the bus during one of them is its own
    business; the log holds the call. *)
Definition SPI_Init : io unit := call EvInit.
Definition SPI_CS_Low : io unit := call EvCSLow.
Definition SPI_CS_High : io unit := call EvCSHigh.
Definition SPI_Freq_Low : io unit := call EvFreqLow.
Definition SPI_Freq_High : io unit := call EvFreqHigh.
Definition SPI_Release : io unit := call EvRelease.
Definition SPI_Timer_On (ms : Z) : io unit := call (EvTimerOn ms).
Definition SPI_Timer_Off : io unit := call EvTimerOff.

(** ** Loops

    [do { body } while (cond)] and [while (cond) body] with a bound on the
    number of iterations; running out of the bound is not returning. *)

Fixpoint do_while {A} (fuel : nat) (body : io A) (cond : A -> io bool) : io A :=
  match fuel with
  | O => fun _ => None
  | S n =>
      x <- body ;;
      c <- cond x ;;
      if c then do_while n body cond else ret x
  end.

Fixpoint while_do (fuel : nat) (cond : io bool) (body : io unit) : io unit :=
  match fuel with
  | O => fun _ => None
  | S n =>
      c <- cond ;;
      if c then body ;; while_do n cond body else ret tt
  end.

(** A loop whose every further iteration asks the timer once more runs at
    most once per remaining answer of the timer, plus one. *)
Definition timed {A} (loop : nat -> io A) : io A :=
  fun w => loop (S (length (tmr w))) w.

(** [for (idx = from; idx != from + n; idx++) body(idx)] *)
Fixpoint for_idx (from : Z) (n : nat) (body : Z -> io unit) : io unit :=
  match n with
  | O => ret tt
  | S k => body from ;; for_idx (from + 1) k body
  end.

(** [do { res = SPI_RW(0xFF); } while (again(res) && SPI_Timer_Status()==TRUE)] *)
Definition poll (again : Z -> bool) : io Z :=
  timed (fun fuel =>
    do_while fuel (SPI_RW 0xFF)
      (fun res => if again res then SPI_Timer_Status else ret false)).

(** The three conditions the driver polls on: [(res & 0x80)] in
    [__SD_Send_Cmd], [(line==0)] in [__SD_Write_Block] and [(tkn==0xFF)]
    in [SD_Read]. *)
Definition r1_pending (res : Z) : bool := negb (Z.land res 0x80 =? 0).
Definition line_busy (line : Z) : bool := line =? 0.
Definition token_pending (tkn : Z) : bool := tkn =? 0xFF.

(** ** Private methods of [sd_io.c] *)

(** [((uint32_t) 1) << e]; the driver calls it with [e] below 32. *)
Definition __SD_Power_Of_Two (e : Z) : Z := u32 (Z.shiftl 1 e).

Definition __SD_Assert : io unit := SPI_CS_Low.
Definition __SD_Deassert : io unit := SPI_CS_High.

Definition __SD_Speed_Transfer (throttle : Z) : io unit :=
  if throttle =? HIGH then SPI_Freq_High else SPI_Freq_Low.

Definition cmd_crc (cmd : Z) : Z :=
  let crc := 0x01 in
  let crc := if cmd =? CMD0 then 0x95 else crc in
  let crc := if cmd =? CMD8 then 0x87 else crc in
  crc.

(** Lines 148-175 of [__SD_Send_Cmd]: select the card, send the command
    set, wait for the response. *)
Definition send_cmd_body (cmd arg : Z) : io Z :=
  __SD_Deassert ;;
  SPI_RW 0xFF ;;
  __SD_Assert ;;
  SPI_RW 0xFF ;;
  SPI_RW cmd ;;
  SPI_RW (u8 (Z.shiftr arg 24)) ;;
  SPI_RW (u8 (Z.shiftr arg 16)) ;;
  SPI_RW (u8 (Z.shiftr arg 8)) ;;
  SPI_RW (u8 (Z.shiftr arg 0)) ;;
  SPI_RW (cmd_crc cmd) ;;
  SPI_Timer_On 5 ;;
  res <- poll r1_pending ;;
  SPI_Timer_Off ;;
  ret res.

(** [__SD_Send_Cmd] calls itself for the CMD55 prefix of an application
    command; [depth] bounds the nesting of these calls. *)
Fixpoint send_cmd_rec (depth : nat) (cmd arg : Z) : io Z :=
  match depth with
  | O => fun _ => None
  | S d =>
      if negb (Z.land cmd 0x80 =? 0) then
        let cmd := u8 (Z.land cmd 0x7F) in
        res <- send_cmd_rec d CMD55 0 ;;
        if res >? 1 then ret res else send_cmd_body cmd arg
      else send_cmd_body cmd arg
  end.

(** CMD55 has bit 7 clear, so the nesting never exceeds two calls. *)
Definition __SD_Send_Cmd (cmd arg : Z) : io Z := send_cmd_rec 2 cmd arg.

Definition write_wait : io SDRESULTS :=
  SPI_Timer_On SD_IO_WRITE_TIMEOUT_WAIT ;;
  line <- poll line_busy ;;
  SPI_Timer_Off ;;
  if line =? 0 then ret SD_BUSY else ret SD_OK.

(** [dat] is the caller's block, read one byte at index [idx] at a time. *)
Definition __SD_Write_Block (dev : SD_DEV) (dat : list Z) (token : Z)
  : io SDRESULTS :=
  SPI_RW token ;;
  if negb (token =? 0xFD) then
    for_idx 0 (Z.to_nat SD_BLK_SIZE)
      (fun idx => SPI_RW (u8 (nth (Z.to_nat idx) dat 0)) ;; ret tt) ;;
    SPI_RW 0xFF ;;
    SPI_RW 0xFF ;;
    resp <- SPI_RW 0xFF ;;
    if negb (Z.land resp 0x1F =? 0x05) then ret SD_REJECT else write_wait
  else write_wait.

(** [for (idx = 0; idx != n; idx++) buf[idx] = SPI_RW(0xFF);] *)
Fixpoint read_bytes (n : nat) : io (list Z) :=
  match n with
  | O => ret []
  | S k => b <- SPI_RW 0xFF ;; l <- read_bytes k ;; ret (b :: l)
  end.

(** The decode of the CSD register in [__SD_Sectors]: the three fields
    ([C_SIZE], [C_SIZE_MULT], [READ_BL_LEN]) as the local variables hold
    them, [uint16_t], [uint8_t] and [uint8_t]. *)
Definition csd_fields (ct : Z) (csd : list Z) : Z * Z * Z :=
  let at_ (i : nat) := nth i csd 0 in
  let C_SIZE := 0 in
  let C_SIZE_MULT := 0 in
  let READ_BL_LEN := 0 in
  if negb (Z.land ct SDCT_SD1 =? 0) then
    let READ_BL_LEN := u8 (Z.land (at_ 5%nat) 0x0F) in
    let C_SIZE := u16 (Z.land (at_ 6%nat) 0x03) in
    let C_SIZE := u16 (Z.shiftl C_SIZE 8) in
    let C_SIZE := u16 (Z.lor C_SIZE (at_ 7%nat)) in
    let C_SIZE := u16 (Z.shiftl C_SIZE 2) in
    let C_SIZE := u16 (Z.lor C_SIZE (Z.land (Z.shiftr (at_ 8%nat) 6) 0x03)) in
    let C_SIZE_MULT := u8 (Z.land (at_ 9%nat) 0x03) in
    let C_SIZE_MULT := u8 (Z.shiftl C_SIZE_MULT 1) in
    let C_SIZE_MULT :=
      u8 (Z.lor C_SIZE_MULT (Z.land (Z.shiftr (at_ 10%nat) 7) 0x01)) in
    (C_SIZE, C_SIZE_MULT, READ_BL_LEN)
  else if negb (Z.land ct SDCT_SD2 =? 0) then
    let C_SIZE := u16 (Z.land (at_ 7%nat) 0x3F) in
    let C_SIZE := u16 (Z.shiftl C_SIZE 8) in
    let C_SIZE := u16 (Z.lor C_SIZE (Z.land (at_ 8%nat) 0xFF)) in
    let C_SIZE := u16 (Z.shiftl C_SIZE 8) in
    let C_SIZE := u16 (Z.lor C_SIZE (Z.land (at_ 9%nat) 0xFF)) in
    let C_SIZE_MULT := 0 in
    (C_SIZE, C_SIZE_MULT, READ_BL_LEN)
  else (C_SIZE, C_SIZE_MULT, READ_BL_LEN).

Definition csd_sectors (ct : Z) (csd : list Z) : Z :=
  let '(C_SIZE, C_SIZE_MULT, READ_BL_LEN) := csd_fields ct csd in
  let ss := u32 (C_SIZE + 1) in
  let ss := u32 (ss * __SD_Power_Of_Two (u8 (C_SIZE_MULT + 2))) in
  let ss := u32 (ss * __SD_Power_Of_Two READ_BL_LEN) in
  let ss := ss / SD_BLK_SIZE in
  ss.

(** [while (SPI_RW(0xFF) == 0xFF);] has no timeout.  Once the script of
    the card is over the line reads 0xFF for ever, so the loop returns
    within one iteration per scripted byte or not at all. *)
Definition wait_not_ff : io unit :=
  fun w =>
    while_do (S (length (rx w)))
      (b <- SPI_RW 0xFF ;; ret (b =? 0xFF)) (ret tt) w.

Definition __SD_Sectors (dev : SD_DEV) : io Z :=
  r <- __SD_Send_Cmd CMD9 0 ;;
  if r =? 0 then
    wait_not_ff ;;
    csd <- read_bytes 16 ;;
    SPI_RW 0xFF ;;
    SPI_RW 0xFF ;;
    SPI_Release ;;
    ret (csd_sectors (cardtype dev) csd)
  else ret 0.

(** ** Public methods *)

(** One pass of the body of the [for] loop of [SD_Init]; [ct] is 0 on
    entry.  Returns the detected card type and the device. *)
Definition init_attempt (dev : SD_DEV) : io (Z * SD_DEV) :=
  SPI_Init ;;
  SPI_CS_High ;;
  SPI_Freq_Low ;;
  for_idx 0 10 (fun _ => SPI_RW 0xFF ;; ret tt) ;;
  SPI_Timer_On 500 ;;
  timed (fun fuel => while_do fuel SPI_Timer_Status (ret tt)) ;;
  SPI_Timer_Off ;;
  let dev := mkDev FALSE (cardtype dev) (last_sector dev) in
  SPI_Timer_On 500 ;;
  timed (fun fuel =>
    while_do fuel
      (r <- __SD_Send_Cmd CMD0 0 ;;
       if negb (r =? 1) then SPI_Timer_Status else ret false)
      (ret tt)) ;;
  SPI_Timer_Off ;;
  r <- __SD_Send_Cmd CMD0 0 ;;
  ct <- (if r =? 1 then
           r8 <- __SD_Send_Cmd CMD8 0x1AA ;;
           if r8 =? 1 then
             ocr <- read_bytes 4 ;;
             if (nth 2 ocr 0 =? 0x01) && (nth 3 ocr 0 =? 0xAA) then
               SPI_Timer_On 1000 ;;
               timed (fun fuel =>
                 while_do fuel
                   (s <- SPI_Timer_Status ;;
                    if s then
                      r <- __SD_Send_Cmd ACMD41 (Z.shiftl 1 30) ;;
                      ret (negb (r =? 0))
                    else ret false)
                   (ret tt)) ;;
               SPI_Timer_Off ;;
               s <- SPI_Timer_Status ;;
               ok <- (if s then r <- __SD_Send_Cmd CMD58 0 ;; ret (r =? 0)
                      else ret false) ;;
               if ok then
                 ocr <- read_bytes 4 ;;
                 ret (if negb (Z.land (nth 0 ocr 0) 0x40 =? 0)
                      then Z.lor SDCT_SD2 SDCT_BLOCK else SDCT_SD2)
               else ret 0
             else ret 0
           else
             r <- __SD_Send_Cmd ACMD41 0 ;;
             let ct := if r <=? 1 then SDCT_SD1 else SDCT_MMC in
             let cmd := if r <=? 1 then ACMD41 else CMD1 in
             SPI_Timer_On 250 ;;
             timed (fun fuel =>
               while_do fuel
                 (s <- SPI_Timer_Status ;;
                  if s then r <- __SD_Send_Cmd cmd 0 ;; ret (negb (r =? 0))
                  else ret false)
                 (ret tt)) ;;
             SPI_Timer_Off ;;
             s <- SPI_Timer_Status ;;
             let ct := if negb s then 0 else ct in
             r <- __SD_Send_Cmd CMD59 0 ;;
             let ct := if negb (r =? 0) then 0 else ct in
             r <- __SD_Send_Cmd CMD16 512 ;;
             let ct := if negb (r =? 0) then 0 else ct in
             ret ct
         else ret 0) ;;
  ret (ct, dev).

(** [for(init_trys=0; ((init_trys!=SD_INIT_TRYS)&&(!ct)); init_trys++)] *)
Fixpoint init_loop (fuel : nat) (init_trys ct : Z) (dev : SD_DEV)
  : io (Z * SD_DEV) :=
  match fuel with
  | O => fun _ => None
  | S n =>
      if negb (init_trys =? SD_INIT_TRYS) && (ct =? 0) then
        r <- init_attempt dev ;;
        init_loop n (u8 (init_trys + 1)) (fst r) (snd r)
      else ret (ct, dev)
  end.

Definition SD_Init (dev : SD_DEV) : io (SDRESULTS * SD_DEV) :=
  r <- init_loop (S (Z.to_nat SD_INIT_TRYS)) 0 0 dev ;;
  let ct := fst r in
  let dev := snd r in
  dev <- (if negb (ct =? 0) then
            let dev := mkDev (mount dev) ct (last_sector dev) in
            let dev := mkDev TRUE (cardtype dev) (last_sector dev) in
            ss <- __SD_Sectors dev ;;
            let dev := mkDev (mount dev) (cardtype dev) (u16 (ss - 1)) in
            __SD_Speed_Transfer HIGH ;;
            ret dev
          else ret dev) ;;
  SPI_Release ;;
  ret (if negb (ct =? 0) then SD_OK else SD_NOINIT, dev).

(** A [uint16_t] counter of a [do { } while (--n)] loop reaches 0 within
    65536 iterations. *)
Definition u16_iters : nat := Z.to_nat 65536.

(** [do { SPI_RW(0xFF); } while (--n);] *)
Fixpoint skip_loop (fuel : nat) (n : Z) : io unit :=
  match fuel with
  | O => fun _ => None
  | S f =>
      SPI_RW 0xFF ;;
      let n := u16 (n - 1) in
      if negb (n =? 0) then skip_loop f n else ret tt
  end.

(** The caller's buffer is a list of bytes and [pos] the index [dat]
    points at.  Writing past the buffer is undefined in C; here such a
    write leaves the buffer as it is. *)
Fixpoint store (pos : nat) (v : Z) (buf : list Z) : list Z :=
  match buf, pos with
  | [], _ => []
  | _ :: t, O => v :: t
  | h :: t, S p => h :: store p v t
  end.

(** [do { dat[0] = SPI_RW(0xFF); dat++; } while (--cnt);] *)
Fixpoint recv_loop (fuel : nat) (buf : list Z) (pos : nat) (cnt : Z)
  : io (list Z) :=
  match fuel with
  | O => fun _ => None
  | S f =>
      b <- SPI_RW 0xFF ;;
      let buf := store pos b buf in
      let pos := S pos in
      let cnt := u16 (cnt - 1) in
      if negb (cnt =? 0) then recv_loop f buf pos cnt else ret buf
  end.

(** Lines 357-361 of [SD_Read]: the wait for the data packet. *)
Definition wait_token : io Z :=
  SPI_Timer_On 100 ;;
  tkn <- poll token_pending ;;
  SPI_Timer_Off ;;
  ret tkn.

(** Lines 364-381 of [SD_Read]: the transfer after the token. *)
Definition read_data (dat : list Z) (ofs cnt : Z) : io (list Z) :=
  let remaining := u16 (SD_BLK_SIZE + 2 - ofs - cnt) in
  (if negb (ofs =? 0) then skip_loop u16_iters ofs else ret tt) ;;
  dat' <- recv_loop u16_iters dat 0 cnt ;;
  skip_loop u16_iters remaining ;;
  ret dat'.

Definition SD_Read (dev : SD_DEV) (dat : list Z) (sector ofs cnt : Z)
  : io (SDRESULTS * list Z) :=
  let res := SD_ERROR in
  if (sector >? last_sector dev) || (cnt =? 0) then ret (SD_PARERR, dat)
  else
    r <- __SD_Send_Cmd CMD17 (u32 (sector * SD_BLK_SIZE)) ;;
    out <- (if r =? 0 then
              tkn <- wait_token ;;
              if tkn =? 0xFE then
                dat' <- read_data dat ofs cnt ;;
                ret (SD_OK, dat')
              else ret (res, dat)
            else ret (res, dat)) ;;
    SPI_Release ;;
    ret out.

Definition SD_Write (dev : SD_DEV) (dat : list Z) (sector : Z)
  : io SDRESULTS :=
  if sector >? last_sector dev then ret SD_PARERR
  else
    r <- __SD_Send_Cmd CMD24 (u32 (sector * SD_BLK_SIZE)) ;;
    if r =? 0 then __SD_Write_Block dev dat 0xFE else ret SD_ERROR.

Definition SD_Status : io SDRESULTS :=
  r <- __SD_Send_Cmd CMD0 0 ;;
  ret (if negb (r =? 0) then SD_OK else SD_NORESPONSE).

(** An idle transport: nothing scripted, nothing logged. *)
Definition idle : spi := mkSpi [] [] [].


(** ** The reading of the CSD register the comments of [__SD_Sectors] name

    The register is 128 bits wide, byte 0 first; the bit ranges are those
    of the comments in the source: READ_BL_LEN [83:80], C_SIZE [73:62] and
    C_SIZE_MULT [49:47] for version 1, C_SIZE [69:48] for version 2. *)

Definition READ_BL_LEN_field (csd : list Z) : Z :=
  nth 5 csd 0 mod 16.

Definition C_SIZE_v1_field (csd : list Z) : Z :=
  (nth 6 csd 0 mod 4) * 1024 + nth 7 csd 0 * 4 + nth 8 csd 0 / 64.

Definition C_SIZE_MULT_field (csd : list Z) : Z :=
  (nth 9 csd 0 mod 4) * 2 + nth 10 csd 0 / 128.

Definition C_SIZE_v2_field (csd : list Z) : Z :=
  (nth 7 csd 0 mod 64) * 65536 + nth 8 csd 0 * 256 + nth 9 csd 0.

Definition is_byte (b : Z) : Prop := 0 <= b < 256.

(** The synthetic version 1 register of the capacity test: C_SIZE = 0,
    C_SIZE_MULT = 0, READ_BL_LEN = 9. *)
Definition csd_v1_minimal : list Z :=
  [0; 0; 0; 0; 0; 9; 0; 0; 0; 0; 0; 0; 0; 0; 0; 0].

(** A version 2 register of a 64 GB card: C_SIZE = 0x1DBFF. *)
Definition csd_v2_64GB : list Z :=
  [0x40; 0x0E; 0x00; 0x32; 0x5B; 0x59; 0x00; 0x01;
   0xDB; 0xFF; 0x7F; 0x80; 0x0A; 0x40; 0x00; 0x01].


(** ** Reading the log of the transport *)

(** The first [n] bytes the card clocks in from the script [l]. *)
Fixpoint clocked (n : nat) (l : list Z) : list Z :=
  match n with
  | O => []
  | S k => next_byte l :: clocked k (tl l)
  end.

(** The exchanges that send [outs] and receive [ins]. *)
Definition exchanges (outs ins : list Z) : list event :=
  map (fun p => EvRW (fst p) (snd p)) (combine outs ins).

(** The transport after the bytes [outs] were sent one after the other. *)
Definition burst (outs : list Z) (w : spi) : spi :=
  mkSpi (skipn (length outs) (rx w)) (tmr w)
        (trace w ++ exchanges outs (clocked (length outs) (rx w))).

(** The bytes the driver sent, oldest first. *)
Definition sent (tr : list event) : list Z :=
  flat_map (fun e => match e with EvRW o _ => [o] | _ => [] end) tr.

(** The log of a polling loop that read the bytes [xs] and went on after
    each of them. *)
Definition wait_events (xs : list Z) : list event :=
  flat_map (fun x => [EvRW 0xFF x; EvTimerStatus true]) xs.

(** The log of the last iteration of a polling loop: the byte [res], and
    the expired timer when it is the timer that ended the loop. *)
Definition poll_end (again : Z -> bool) (res : Z) : list event :=
  EvRW 0xFF res :: (if again res then [EvTimerStatus false] else []).

(** One run of the loop of [poll]: the bytes [xs] were read and polling
    went on, then [res] was read and polling ended. *)
Inductive polls (again : Z -> bool) : spi -> list Z -> Z -> spi -> Prop :=
| polls_stop w :
    again (next_byte (rx w)) = false ->
    polls again w [] (next_byte (rx w)) (rw_state 0xFF w)
| polls_expired w :
    again (next_byte (rx w)) = true ->
    hd false (tmr w) = false ->
    polls again w [] (next_byte (rx w)) (ts_state (rw_state 0xFF w))
| polls_again w xs res w' :
    again (next_byte (rx w)) = true ->
    hd false (tmr w) = true ->
    polls again (ts_state (rw_state 0xFF w)) xs res w' ->
    polls again w (next_byte (rx w) :: xs) res w'.

(** The six bytes of the command frame of [cmd] and [arg]. *)
Definition frame (cmd arg : Z) : list Z :=
  [cmd; (arg / 16777216) mod 256; (arg / 65536) mod 256;
   (arg / 256) mod 256; arg mod 256;
   if cmd =? 0x40 then 0x95 else if cmd =? 0x48 then 0x87 else 0x01].

(** One command exchange on the transport [w]: deselect and select with an
    idle byte each, the frame, the wait for the response [res]. *)
Definition exchanged (cmd arg : Z) (w : spi) (res : Z) (w' : spi) : Prop :=
  exists xs w4,
    polls r1_pending
      (emit (EvTimerOn 5)
         (burst (0xFF :: frame cmd arg)
            (emit EvCSLow (burst [0xFF] (emit EvCSHigh w)))))
      xs res w4 /\
    w' = emit EvTimerOff w4.

(** A computation that returns on every transport and leaves the timer
    no further answers than it found. *)
Definition steady {A} (m : io A) : Prop :=
  forall w, exists a w',
    m w = Some (a, w') /\ (length (tmr w') <= length (tmr w))%nat.

(** A loop condition that returns on every transport and has used up an
    answer of the timer whenever it lets the loop go on. *)
Definition ticking (c : io bool) : Prop :=
  forall w, exists b w',
    c w = Some (b, w') /\
    (length (tmr w') <= length (tmr w))%nat /\
    (b = true -> (length (tmr w') < length (tmr w))%nat).

(** The indices [from], [from + 1], ... of a [for] loop of [n] rounds. *)
Fixpoint zseq (from : Z) (n : nat) : list Z :=
  match n with
  | O => []
  | S k => from :: zseq (from + 1) k
  end.

(** The 512 bytes [__SD_Write_Block] reads from the caller's block. *)
Definition block_bytes (dat : list Z) : list Z :=
  map (fun idx => u8 (nth (Z.to_nat idx) dat 0)) (zseq 0 (Z.to_nat SD_BLK_SIZE)).

(** The buffer after the bytes [bs] were stored from index [pos] on. *)
Fixpoint store_all (pos : nat) (bs : list Z) (buf : list Z) : list Z :=
  match bs with
  | [] => buf
  | b :: r => store_all (S pos) r (store pos b buf)
  end.

(** ** Scripts of a card *)

(** What the card clocks in during one command exchange answered with
    [r]: idle bytes while the driver selects and sends, then [r]. *)
Definition reply (r : Z) : list Z := repeat 0xFF 8 ++ [r].

(** A version 1 card through the negotiation of [SD_Init]: idle on the
    two CMD0, CMD8 refused, ACMD41 until ready, CMD59 and CMD16
    accepted. *)
Definition sd1_negotiation : list Z :=
  repeat 0xFF 10 ++ flat_map reply [1; 1; 5; 1; 1; 1; 0; 0; 0].

(** The timer during that negotiation: the settling delay over at the
    first look, then running. *)
Definition sd1_timer : list bool := [false; true; true].

(** A version 1 register with C_SIZE = 1024, C_SIZE_MULT = 4 and
    READ_BL_LEN = 9: 65600 sectors. *)
Definition csd_v1_65600 : list Z :=
  [0; 0; 0; 0; 0; 9; 1; 0; 0; 2; 0; 0; 0; 0; 0; 0].

(** ** What a computation leaves behind *)

(** The events of a command exchange or a data transfer: byte exchanges,
    chip select and the timer. *)
Definition bus (e : event) : Prop :=
  match e with
  | EvInit | EvFreqLow | EvFreqHigh | EvRelease => False
  | _ => True
  end.

(** The events of the descriptor read: those of the bus and the
    release. *)
Definition not_init (e : event) : Prop :=
  match e with
  | EvInit | EvFreqLow | EvFreqHigh => False
  | _ => True
  end.

Definition is_init (e : event) : bool :=
  match e with
  | EvInit => true
  | _ => false
  end.

Definition any {A} (a : A) : Prop := True.

(** Whenever [m] returns, its result satisfies [Q] and every event it
    added to the log satisfies [P]. *)
Definition sat {A} (P : event -> Prop) (Q : A -> Prop) (m : io A) : Prop :=
  forall w a w',
    m w = Some (a, w') ->
    Q a /\ exists evs, trace w' = trace w ++ evs /\ Forall P evs.

(** The card types [SD_Init] can detect. *)
Definition card_type (ct : Z) : Prop :=
  ct = SDCT_MMC \/ ct = SDCT_SD1 \/ ct = SDCT_SD2 \/
  ct = Z.lor SDCT_SD2 SDCT_BLOCK.

(** The events of one pass of the negotiation behind its [SPI_Init]. *)
Definition settling (e : event) : Prop :=
  match e with
  | EvInit | EvFreqHigh | EvRelease => False
  | _ => True
  end.

(** The events of the negotiation. *)
Definition attempting (e : event) : Prop :=
  match e with
  | EvFreqHigh | EvRelease => False
  | _ => True
  end.

(** How often the log [evs] has [SPI_Init]: the number of passes. *)
Definition count_init (evs : list event) : nat := length (filter is_init evs).

(** On a line that no card drives, nothing scripted, [m] leaves the line
    as it is and its result satisfies [Q]. *)
Definition quiet {A} (Q : A -> Prop) (m : io A) : Prop :=
  forall w a w', rx w = [] -> m w = Some (a, w') -> rx w' = [] /\ Q a.
(** ** Arithmetic of the bit operations *)

Ltac dlia := Z.to_euclidean_division_equations; lia.

Section Bits.

Lemma land_shiftl_low (a b k : Z) :
  0 <= k -> 0 <= b < 2 ^ k -> Z.land (Z.shiftl a k) b = 0.
Proof.
  intros Hk Hb. apply Z.bits_inj'. intros n Hn.
  rewrite Z.land_spec, Z.bits_0.
  destruct (Z.lt_ge_cases n k) as [Hlt | Hge].
  - rewrite Z.shiftl_spec_low by assumption. reflexivity.
  - rewrite <- (Z.mod_small b (2 ^ k)) by assumption.
    rewrite Z.mod_pow2_bits_high by lia. apply andb_false_r.
Qed.

Lemma lor_shiftl_low (a b k : Z) :
  0 <= k -> 0 <= b < 2 ^ k -> Z.lor (Z.shiftl a k) b = a * 2 ^ k + b.
Proof.
  intros Hk Hb.
  assert (H : Z.lor (Z.shiftl a k) b = Z.shiftl a k + b - Z.land (Z.shiftl a k) b)
    by (pose proof (Z.add_lor_land (Z.shiftl a k) b); lia).
  rewrite land_shiftl_low in H by assumption.
  rewrite H. rewrite Z.shiftl_mul_pow2 by assumption. lia.
Qed.

Lemma lor_mul_low (a b m k : Z) :
  m = 2 ^ k -> 0 <= k -> 0 <= b < m -> Z.lor (a * m) b = a * m + b.
Proof.
  intros -> Hk Hb. rewrite <- Z.shiftl_mul_pow2 by assumption.
  rewrite lor_shiftl_low by assumption.
  rewrite Z.shiftl_mul_pow2 by assumption. reflexivity.
Qed.

Lemma land_low_bits (a n : Z) (m : Z) :
  0 <= n -> m = Z.ones n -> Z.land a m = a mod 2 ^ n.
Proof. intros Hn ->. apply Z.land_ones. assumption. Qed.

Lemma nth_is_byte (csd : list Z) (i : nat) :
  Forall is_byte csd -> is_byte (nth i csd 0).
Proof.
  intros H. revert i. induction H as [| b l Hb _ IH]; intros [| i]; simpl;
    try (unfold is_byte; lia); auto.
Qed.

End Bits.

(** ** Descriptor decode *)

Lemma csd_fields_sd1 (ct : Z) (csd : list Z) :
  Z.land ct SDCT_SD1 <> 0 ->
  Forall is_byte csd ->
  csd_fields ct csd =
    (C_SIZE_v1_field csd, C_SIZE_MULT_field csd, READ_BL_LEN_field csd).
Proof.
  intros Hct Hcsd. unfold csd_fields.
  destruct (Z.eqb_spec (Z.land ct SDCT_SD1) 0) as [E | _]; [contradiction |].
  cbn [negb].
  unfold C_SIZE_v1_field, C_SIZE_MULT_field, READ_BL_LEN_field.
  pose proof (nth_is_byte csd 5 Hcsd) as H5.
  pose proof (nth_is_byte csd 6 Hcsd) as H6.
  pose proof (nth_is_byte csd 7 Hcsd) as H7.
  pose proof (nth_is_byte csd 8 Hcsd) as H8.
  pose proof (nth_is_byte csd 9 Hcsd) as H9.
  pose proof (nth_is_byte csd 10 Hcsd) as H10.
  unfold is_byte in *.
  set (b5 := nth 5 csd 0) in *. set (b6 := nth 6 csd 0) in *.
  set (b7 := nth 7 csd 0) in *. set (b8 := nth 8 csd 0) in *.
  set (b9 := nth 9 csd 0) in *. set (b10 := nth 10 csd 0) in *.
  clearbody b5 b6 b7 b8 b9 b10.
  rewrite (land_low_bits b5 4), (land_low_bits b6 2), (land_low_bits b9 2)
    by (reflexivity || lia).
  rewrite (land_low_bits (Z.shiftr b8 6) 2), (land_low_bits (Z.shiftr b10 7) 1)
    by (reflexivity || lia).
  rewrite !Z.shiftr_div_pow2, !Z.shiftl_mul_pow2 by lia.
  change (2 ^ 4) with 16. change (2 ^ 2) with 4. change (2 ^ 1) with 2.
  change (2 ^ 6) with 64. change (2 ^ 7) with 128. change (2 ^ 8) with 256.
  unfold u8, u16.
  rewrite (Z.mod_small (b8 / 64) 4), (Z.mod_small (b10 / 128) 2) by dlia.
  rewrite (Z.mod_small (b5 mod 16) 256) by dlia.
  rewrite (Z.mod_small (b6 mod 4) 65536) by dlia.
  rewrite (Z.mod_small (b6 mod 4 * 256) 65536) by dlia.
  rewrite (lor_mul_low (b6 mod 4) b7 256 8) by (reflexivity || lia).
  rewrite (Z.mod_small (b6 mod 4 * 256 + b7) 65536) by dlia.
  rewrite (Z.mod_small ((b6 mod 4 * 256 + b7) * 4) 65536) by dlia.
  rewrite (lor_mul_low (b6 mod 4 * 256 + b7) (b8 / 64) 4 2)
    by (reflexivity || dlia).
  rewrite (Z.mod_small ((b6 mod 4 * 256 + b7) * 4 + b8 / 64) 65536) by dlia.
  rewrite (Z.mod_small (b9 mod 4) 256) by dlia.
  rewrite (Z.mod_small (b9 mod 4 * 2) 256) by dlia.
  rewrite (lor_mul_low (b9 mod 4) (b10 / 128) 2 1) by (reflexivity || dlia).
  rewrite (Z.mod_small (b9 mod 4 * 2 + b10 / 128) 256) by dlia.
  f_equal. f_equal. lia.
Qed.

Lemma csd_fields_sd2 (ct : Z) (csd : list Z) :
  Z.land ct SDCT_SD1 = 0 ->
  Z.land ct SDCT_SD2 <> 0 ->
  Forall is_byte csd ->
  csd_fields ct csd = (C_SIZE_v2_field csd mod 65536, 0, 0).
Proof.
  intros Hv1 Hv2 Hcsd. unfold csd_fields. rewrite Hv1.
  destruct (Z.eqb_spec (Z.land ct SDCT_SD2) 0) as [E | _]; [contradiction |].
  cbn [negb Z.eqb].
  unfold C_SIZE_v2_field.
  pose proof (nth_is_byte csd 7 Hcsd) as H7.
  pose proof (nth_is_byte csd 8 Hcsd) as H8.
  pose proof (nth_is_byte csd 9 Hcsd) as H9.
  unfold is_byte in *.
  set (b7 := nth 7 csd 0) in *. set (b8 := nth 8 csd 0) in *.
  set (b9 := nth 9 csd 0) in *. clearbody b7 b8 b9.
  rewrite (land_low_bits b7 6), (land_low_bits b8 8), (land_low_bits b9 8)
    by (reflexivity || lia).
  rewrite !Z.shiftl_mul_pow2 by lia.
  change (2 ^ 6) with 64. change (2 ^ 8) with 256.
  unfold u16.
  rewrite (Z.mod_small b8 256), (Z.mod_small b9 256) by lia.
  rewrite (Z.mod_small (b7 mod 64) 65536) by dlia.
  rewrite (Z.mod_small (b7 mod 64 * 256) 65536) by dlia.
  rewrite (lor_mul_low (b7 mod 64) b8 256 8) by (reflexivity || lia).
  rewrite (Z.mod_small (b7 mod 64 * 256 + b8) 65536) by dlia.
  replace (((b7 mod 64 * 256 + b8) * 256) mod 65536) with (b8 * 256) by dlia.
  rewrite (lor_mul_low b8 b9 256 8) by (reflexivity || lia).
  rewrite (Z.mod_small (b8 * 256 + b9) 65536) by lia.
  f_equal. f_equal. dlia.
Qed.

(** C7.  For a session of class SD version 1 the decode takes READ_BL_LEN
    from the low 4 bits of CSD byte 5, C_SIZE from the 12 bits that span
    bytes 6 to 8 and C_SIZE_MULT from the 3 bits that span bytes 9 and 10;
    a register with C_SIZE = 0, C_SIZE_MULT = 0 and READ_BL_LEN = 9 gives
    a sector count of 4. *)
Theorem sd1_descriptor_decode (ct : Z) (csd : list Z) :
  Z.land ct SDCT_SD1 <> 0 ->
  Forall is_byte csd ->
  csd_fields ct csd =
    (C_SIZE_v1_field csd, C_SIZE_MULT_field csd, READ_BL_LEN_field csd) /\
  (C_SIZE_v1_field csd = 0 -> C_SIZE_MULT_field csd = 0 ->
   READ_BL_LEN_field csd = 9 -> csd_sectors ct csd = 4).
Proof.
  intros Hct Hcsd. split.
  - apply csd_fields_sd1; assumption.
  - intros Hc Hm Hb. unfold csd_sectors.
    rewrite csd_fields_sd1 by assumption. rewrite Hc, Hm, Hb. reflexivity.
Qed.

Lemma sd1_descriptor_decode_witness :
  csd_fields SDCT_SD1 csd_v1_minimal = (0, 0, 9) /\
  csd_sectors SDCT_SD1 csd_v1_minimal = 4.
Proof.
  assert (Hct : Z.land SDCT_SD1 SDCT_SD1 <> 0) by (vm_compute; discriminate).
  assert (Hcsd : Forall is_byte csd_v1_minimal)
    by (repeat constructor; unfold is_byte; lia).
  destruct (sd1_descriptor_decode SDCT_SD1 csd_v1_minimal Hct Hcsd) as [F S].
  split.
  - exact F.
  - apply S; reflexivity.
Defined.

(** C3.  On the version 2 register of a 64 GB card the 22-bit C_SIZE field
    is 0x1DBFF, the decode keeps 0xDBFF of it, its low 16 bits, and the
    sector count comes out as 440. *)
Theorem sd2_c_size_truncated :
  C_SIZE_v2_field csd_v2_64GB = 0x1DBFF /\
  csd_fields SDCT_SD2 csd_v2_64GB = (0xDBFF, 0, 0) /\
  csd_sectors SDCT_SD2 csd_v2_64GB = 440.
Proof. repeat split; vm_compute; reflexivity. Qed.

(** ** Stepping through driver computations *)

Section Stepping.

Context {A B : Type}.

Lemma bind_Some (m : io A) (k : A -> io B) (w w1 : spi) (a : A) :
  m w = Some (a, w1) -> bind m k w = k a w1.
Proof. intros E. unfold bind. rewrite E. reflexivity. Qed.

End Stepping.

Lemma skipn_S_tl {T} (n : nat) (l : list T) :
  skipn (S n) l = skipn n (tl l).
Proof. destruct l; simpl; [rewrite skipn_nil |]; reflexivity. Qed.

Lemma clocked_length (n : nat) (l : list Z) : length (clocked n l) = n.
Proof. revert l. induction n; intros l; simpl; [| rewrite IHn]; reflexivity. Qed.

Lemma clocked_app (n m : nat) (l : list Z) :
  clocked (n + m) l = clocked n l ++ clocked m (skipn n l).
Proof.
  revert l. induction n as [| n IH]; intros l.
  - reflexivity.
  - cbn [Nat.add clocked app]. rewrite IH, skipn_S_tl. reflexivity.
Qed.

Lemma exchanges_app (o1 o2 i1 i2 : list Z) :
  length o1 = length i1 ->
  exchanges (o1 ++ o2) (i1 ++ i2) = exchanges o1 i1 ++ exchanges o2 i2.
Proof.
  revert i1. unfold exchanges.
  induction o1 as [| o o1 IH]; intros [| i i1] H; try discriminate.
  - reflexivity.
  - cbn [app combine map]. f_equal. apply IH. injection H as H. exact H.
Qed.

Lemma burst_nil (w : spi) : burst [] w = w.
Proof.
  destruct w as [r t tr]. unfold burst, exchanges. cbn.
  rewrite app_nil_r. reflexivity.
Qed.

Lemma burst_app (o1 o2 : list Z) (w : spi) :
  burst (o1 ++ o2) w = burst o2 (burst o1 w).
Proof.
  unfold burst. cbn [rx tmr trace].
  rewrite length_app, clocked_app, skipn_skipn.
  rewrite exchanges_app by (rewrite clocked_length; reflexivity).
  rewrite app_assoc, (Nat.add_comm (length o2)). reflexivity.
Qed.

Lemma burst_cons (d : Z) (o : list Z) (w : spi) :
  burst (d :: o) w = burst o (rw_state d w).
Proof. apply (burst_app [d] o w). Qed.

Lemma SPI_RW_burst (d : Z) (w : spi) :
  SPI_RW d w = Some (next_byte (rx w), burst [d] w).
Proof. reflexivity. Qed.

(** ** Computations that return *)

Lemma steady_ret {A} (a : A) : steady (ret a).
Proof. intros w. exists a, w. split; [reflexivity | lia]. Qed.

Lemma steady_bind {A B} (m : io A) (k : A -> io B) :
  steady m -> (forall a, steady (k a)) -> steady (bind m k).
Proof.
  intros Hm Hk w.
  destruct (Hm w) as (a & w1 & E1 & L1).
  destruct (Hk a w1) as (b & w2 & E2 & L2).
  exists b, w2. split.
  - rewrite (bind_Some _ _ _ _ _ E1). exact E2.
  - lia.
Qed.

Lemma steady_call (e : event) : steady (call e).
Proof. intros w. exists tt, (emit e w). split; [reflexivity | cbn; lia]. Qed.

Lemma steady_SPI_RW (d : Z) : steady (SPI_RW d).
Proof.
  intros w. exists (next_byte (rx w)), (rw_state d w).
  split; [reflexivity | cbn; lia].
Qed.

Lemma tl_length_le {T} (l : list T) : (length (tl l) <= length l)%nat.
Proof. destruct l; simpl; lia. Qed.

Lemma hd_true_length (l : list bool) :
  hd false l = true -> (length (tl l) < length l)%nat.
Proof. destruct l; simpl; [discriminate | lia]. Qed.

Lemma ticking_SPI_Timer_Status : ticking SPI_Timer_Status.
Proof.
  intros w. exists (hd false (tmr w)), (ts_state w).
  split; [reflexivity |]. cbn [ts_state tmr]. split.
  - apply tl_length_le.
  - apply hd_true_length.
Qed.

Lemma ticking_steady (c : io bool) : ticking c -> steady c.
Proof.
  intros H w. destruct (H w) as (b & w' & E & L & _).
  exists b, w'. split; assumption.
Qed.

Lemma steady_SPI_Timer_Status : steady SPI_Timer_Status.
Proof. apply ticking_steady, ticking_SPI_Timer_Status. Qed.

Create HintDb steady.

#[local] Hint Resolve steady_ret steady_call steady_SPI_RW
  steady_SPI_Timer_Status : steady.

Lemma steady_for_idx (from : Z) (n : nat) (body : Z -> io unit) :
  (forall i, steady (body i)) -> steady (for_idx from n body).
Proof.
  intros Hb. revert from.
  induction n as [| n IH]; intros from; cbn [for_idx].
  - apply steady_ret.
  - apply steady_bind; [apply Hb | intros _; apply IH].
Qed.

Lemma steady_read_bytes (n : nat) : steady (read_bytes n).
Proof.
  induction n as [| n IH]; cbn [read_bytes].
  - apply steady_ret.
  - apply steady_bind; [apply steady_SPI_RW | intros b].
    apply steady_bind; [exact IH | intros l; apply steady_ret].
Qed.

(** A loop under a timer returns: every iteration that goes on has used
    up an answer of the timer. *)
Lemma while_do_ticking (c : io bool) (body : io unit) :
  ticking c -> steady body ->
  forall fuel w, (length (tmr w) < fuel)%nat ->
  exists w', while_do fuel c body w = Some (tt, w') /\
             (length (tmr w') <= length (tmr w))%nat.
Proof.
  intros Hc Hb. induction fuel as [| fuel IH]; intros w Hlt; [lia |].
  cbn [while_do].
  destruct (Hc w) as (b & w1 & E1 & L1 & D1).
  rewrite (bind_Some _ _ _ _ _ E1).
  destruct b.
  - destruct (Hb w1) as ([] & w2 & E2 & L2).
    rewrite (bind_Some _ _ _ _ _ E2).
    specialize (D1 eq_refl).
    destruct (IH w2) as (w3 & E3 & L3); [lia |].
    exists w3. split; [exact E3 | lia].
  - exists w1. split; [reflexivity | lia].
Qed.

Lemma steady_timed_while (c : io bool) (body : io unit) :
  ticking c -> steady body ->
  steady (timed (fun fuel => while_do fuel c body)).
Proof.
  intros Hc Hb w. unfold timed.
  destruct (while_do_ticking c body Hc Hb (S (length (tmr w))) w) as (w' & E & L);
    [lia |].
  exists tt, w'. split; assumption.
Qed.

(** ** The polling loop *)

Section Polling.

Variable again : Z -> bool.

Lemma do_while_polls (fuel : nat) (w : spi) :
  (length (tmr w) < fuel)%nat ->
  exists xs res w',
    do_while fuel (SPI_RW 0xFF)
      (fun res => if again res then SPI_Timer_Status else ret false) w
    = Some (res, w') /\
    polls again w xs res w'.
Proof.
  revert w. induction fuel as [| fuel IH]; intros w Hlt; [lia |].
  cbn [do_while]. unfold bind at 1. cbn [SPI_RW].
  destruct (again (next_byte (rx w))) eqn:Eag.
  - unfold bind at 1. cbn [SPI_Timer_Status rw_state tmr].
    destruct (hd false (tmr w)) eqn:Etm.
    + destruct (IH (ts_state (rw_state 0xFF w))) as (xs & res & w' & E & P).
      { cbn [ts_state rw_state tmr]. pose proof (hd_true_length _ Etm). lia. }
      exists (next_byte (rx w) :: xs), res, w'. split; [exact E |].
      apply polls_again; assumption.
    + exists [], (next_byte (rx w)), (ts_state (rw_state 0xFF w)).
      split; [reflexivity | apply polls_expired; assumption].
  - exists [], (next_byte (rx w)), (rw_state 0xFF w).
    split; [reflexivity | apply polls_stop; assumption].
Qed.

Lemma poll_runs (w : spi) :
  exists xs res w', poll again w = Some (res, w') /\ polls again w xs res w'.
Proof. unfold poll, timed. apply do_while_polls. lia. Qed.

Lemma polls_trace (w w' : spi) (xs : list Z) (res : Z) :
  polls again w xs res w' ->
  trace w' = trace w ++ wait_events xs ++ poll_end again res.
Proof.
  induction 1 as [w Ea | w Ea Et | w xs res w' Ea Et _ IH].
  - unfold poll_end. rewrite Ea. reflexivity.
  - unfold poll_end. rewrite Ea. cbn [ts_state rw_state trace tmr].
    rewrite Et, <- app_assoc. reflexivity.
  - rewrite IH. cbn [ts_state rw_state trace tmr wait_events flat_map].
    rewrite Et, <- !app_assoc. reflexivity.
Qed.

Lemma polls_waited (w w' : spi) (xs : list Z) (res : Z) :
  polls again w xs res w' -> Forall (fun x => again x = true) xs.
Proof. induction 1; constructor; assumption. Qed.

Lemma polls_tmr_le (w w' : spi) (xs : list Z) (res : Z) :
  polls again w xs res w' -> (length (tmr w') <= length (tmr w))%nat.
Proof.
  induction 1 as [w Ea | w Ea Et | w xs res w' Ea Et _ IH];
    cbn [ts_state rw_state tmr] in *;
    try pose proof (tl_length_le (tmr w)); lia.
Qed.

Lemma polls_rx (w w' : spi) (xs : list Z) (res : Z) :
  polls again w xs res w' ->
  rx w' = skipn (S (length xs)) (rx w) /\
  xs ++ [res] = clocked (S (length xs)) (rx w).
Proof.
  induction 1 as [w Ea | w Ea Et | w xs res w' Ea Et _ [IH1 IH2]].
  - split; reflexivity.
  - split; reflexivity.
  - cbn [ts_state rw_state rx] in IH1, IH2. split.
    + rewrite IH1. cbn [length]. rewrite (skipn_S_tl (S (length xs))).
      reflexivity.
    + cbn [length app]. rewrite IH2. reflexivity.
Qed.

(** How a run of the loop ends: on a byte that ends the wait, or on the
    timer while the byte still asks to go on. *)
Lemma polls_end (w w' : spi) (xs : list Z) (res : Z) :
  polls again w xs res w' ->
  firstn (length xs) (tmr w) = repeat true (length xs) /\
  (if again res
   then hd false (skipn (length xs) (tmr w)) = false /\
        tmr w' = skipn (S (length xs)) (tmr w)
   else tmr w' = skipn (length xs) (tmr w)).
Proof.
  induction 1 as [w Ea | w Ea Et | w xs res w' Ea Et _ [IH1 IH2]].
  - rewrite Ea. split; reflexivity.
  - rewrite Ea. split; [reflexivity |]. split; [exact Et | reflexivity].
  - cbn [ts_state rw_state tmr] in IH1, IH2.
    destruct (tmr w) as [| t0 ts]; [discriminate |].
    cbn [hd] in Et. subst t0. cbn [tl] in IH1, IH2.
    cbn [length firstn repeat skipn]. split; [f_equal; exact IH1 |].
    exact IH2.
Qed.

End Polling.

Lemma steady_poll (again : Z -> bool) : steady (poll again).
Proof.
  intros w. destruct (poll_runs again w) as (xs & res & w' & E & P).
  exists res, w'. split; [exact E | apply (polls_tmr_le _ _ _ _ _ P)].
Qed.

#[local] Hint Resolve steady_poll steady_read_bytes : steady.

(** ** Command dispatch *)

Lemma frame_code (cmd arg : Z) :
  [cmd; u8 (Z.shiftr arg 24); u8 (Z.shiftr arg 16); u8 (Z.shiftr arg 8);
   u8 (Z.shiftr arg 0); cmd_crc cmd] = frame cmd arg.
Proof.
  unfold frame, cmd_crc, u8, CMD0, CMD8.
  rewrite !Z.shiftr_div_pow2 by lia.
  change (2 ^ 24) with 16777216. change (2 ^ 16) with 65536.
  change (2 ^ 8) with 256. change (2 ^ 0) with 1. rewrite Z.div_1_r.
  change (0x40 + 0) with 0x40. change (0x40 + 8) with 0x48.
  destruct (Z.eqb_spec cmd 0x40) as [-> | N0]; [reflexivity |].
  destruct (Z.eqb_spec cmd 0x48); reflexivity.
Qed.

(** The four argument bytes of the frame are the argument, most
    significant byte first. *)
Lemma frame_big_endian (cmd arg : Z) :
  0 <= arg < 4294967296 ->
  exists b3 b2 b1 b0 crc,
    frame cmd arg = [cmd; b3; b2; b1; b0; crc] /\
    is_byte b3 /\ is_byte b2 /\ is_byte b1 /\ is_byte b0 /\
    arg = b3 * 16777216 + b2 * 65536 + b1 * 256 + b0.
Proof.
  intros H. unfold frame, is_byte.
  eexists _, _, _, _, _. split; [reflexivity |].
  repeat split; dlia.
Qed.

Lemma send_cmd_body_runs (cmd arg : Z) (w : spi) :
  exists res w',
    send_cmd_body cmd arg w = Some (res, w') /\ exchanged cmd arg w res w'.
Proof.
  unfold exchanged. rewrite <- frame_code.
  rewrite !burst_cons, !burst_nil.
  match goal with
  | |- context [polls r1_pending ?W0] => set (W := W0)
  end.
  destruct (poll_runs r1_pending W) as (xs & res & w4 & E & P).
  exists res, (emit EvTimerOff w4). split.
  - cbv [send_cmd_body bind __SD_Deassert __SD_Assert SPI_CS_High SPI_CS_Low
         SPI_Timer_On SPI_Timer_Off call SPI_RW].
    change (poll _ _) with (poll r1_pending W). rewrite E. reflexivity.
  - exists xs, w4. split; [exact P | reflexivity].
Qed.

Lemma exchanged_tmr_le (cmd arg : Z) (w w' : spi) (res : Z) :
  exchanged cmd arg w res w' -> (length (tmr w') <= length (tmr w))%nat.
Proof.
  intros (xs & w4 & P & ->). apply polls_tmr_le in P. exact P.
Qed.

Lemma exchanged_trace (cmd arg : Z) (w w' : spi) (res : Z) :
  exchanged cmd arg w res w' ->
  exists xs,
    Forall (fun x => r1_pending x = true) xs /\
    trace w' =
      trace w ++
      [EvCSHigh; EvRW 0xFF (next_byte (rx w)); EvCSLow] ++
      exchanges (0xFF :: frame cmd arg) (clocked 7 (skipn 1 (rx w))) ++
      [EvTimerOn 5] ++ wait_events xs ++ poll_end r1_pending res ++
      [EvTimerOff].
Proof.
  intros (xs & w4 & P & ->). exists xs. split.
  - apply (polls_waited _ _ _ _ _ P).
  - cbn [emit trace]. rewrite (polls_trace _ _ _ _ _ P).
    cbn [emit burst trace rx length frame].
    cbn [exchanges clocked combine map fst snd].
    rewrite <- !app_assoc. reflexivity.
Qed.

Lemma sent_app (a b : list event) : sent (a ++ b) = sent a ++ sent b.
Proof. apply flat_map_app. Qed.

Lemma sent_exchanges (outs ins : list Z) :
  length outs = length ins -> sent (exchanges outs ins) = outs.
Proof.
  revert ins. unfold exchanges.
  induction outs as [| o outs IH]; intros [| i ins] H; try discriminate.
  - reflexivity.
  - cbn. f_equal. apply IH. injection H as H. exact H.
Qed.

Lemma sent_wait_events (xs : list Z) :
  sent (wait_events xs) = repeat 0xFF (length xs).
Proof.
  induction xs as [| x xs IH]; [reflexivity |].
  change (wait_events (x :: xs))
    with ([EvRW 0xFF x; EvTimerStatus true] ++ wait_events xs).
  rewrite sent_app, IH. reflexivity.
Qed.

Lemma sent_poll_end (again : Z -> bool) (res : Z) :
  sent (poll_end again res) = [0xFF].
Proof. unfold poll_end. destruct (again res); reflexivity. Qed.

Lemma exchanged_sent (cmd arg : Z) (w w' : spi) (res : Z) :
  exchanged cmd arg w res w' ->
  exists n,
    sent (trace w') =
      sent (trace w) ++ [0xFF; 0xFF] ++ frame cmd arg ++ repeat 0xFF (S n).
Proof.
  intros H. destruct (exchanged_trace _ _ _ _ _ H) as (xs & _ & ->).
  exists (length xs).
  rewrite !sent_app, sent_exchanges, sent_wait_events, sent_poll_end
    by (rewrite clocked_length; reflexivity).
  cbn [sent flat_map app]. rewrite <- repeat_cons. reflexivity.
Qed.

Lemma land_bit7_clear (cmd : Z) : 0 <= cmd < 128 -> Z.land cmd 0x80 = 0.
Proof.
  intros H. rewrite Z.land_comm.
  change 0x80 with (Z.shiftl 1 7). apply land_shiftl_low; lia.
Qed.

Lemma land_7F_byte (cmd : Z) : u8 (Z.land cmd 0x7F) = Z.land cmd 0x7F.
Proof.
  rewrite (land_low_bits cmd 7) by (reflexivity || lia).
  unfold u8. apply Z.mod_small. dlia.
Qed.

Lemma send_cmd_plain (cmd arg : Z) :
  Z.land cmd 0x80 = 0 -> __SD_Send_Cmd cmd arg = send_cmd_body cmd arg.
Proof.
  intros H. unfold __SD_Send_Cmd. cbn [send_cmd_rec]. rewrite H. reflexivity.
Qed.

Lemma send_cmd_app (cmd arg : Z) :
  Z.land cmd 0x80 <> 0 ->
  __SD_Send_Cmd cmd arg =
    (res <- send_cmd_body CMD55 0 ;;
     if res >? 1 then ret res else send_cmd_body (Z.land cmd 0x7F) arg).
Proof.
  intros H. unfold __SD_Send_Cmd. cbn [send_cmd_rec].
  change (Z.land CMD55 0x80 =? 0) with true.
  destruct (Z.eqb_spec (Z.land cmd 0x80) 0) as [E | _]; [contradiction |].
  cbn [negb]. rewrite (land_7F_byte cmd). reflexivity.
Qed.

Lemma steady_send_cmd_body (cmd arg : Z) : steady (send_cmd_body cmd arg).
Proof.
  intros w. destruct (send_cmd_body_runs cmd arg w) as (res & w' & E & X).
  exists res, w'. split; [exact E | apply (exchanged_tmr_le _ _ _ _ _ X)].
Qed.

Lemma steady_send_cmd (cmd arg : Z) : steady (__SD_Send_Cmd cmd arg).
Proof.
  destruct (Z.eq_dec (Z.land cmd 0x80) 0) as [E | N].
  - rewrite send_cmd_plain by assumption. apply steady_send_cmd_body.
  - rewrite send_cmd_app by assumption.
    apply steady_bind; [apply steady_send_cmd_body | intros res].
    destruct (res >? 1); [apply steady_ret | apply steady_send_cmd_body].
Qed.

#[local] Hint Resolve steady_send_cmd : steady.

(** C8.  For every command index and argument, dispatch deselects and
    selects the card with an idle byte each and then emits exactly the six
    bytes of the frame: the index byte, the four bytes of the argument,
    most significant first, and 0x95 for CMD0, 0x87 for CMD8, 0x01 for
    every other command; after the frame it only polls with idle bytes. *)
Theorem command_frame (index arg : Z) (w : spi) :
  0 <= index < 64 ->
  let crc := if index =? 0 then 0x95 else if index =? 8 then 0x87 else 0x01 in
  let fr := [0x40 + index; (arg / 16777216) mod 256; (arg / 65536) mod 256;
             (arg / 256) mod 256; arg mod 256; crc] in
  exists res w' xs,
    __SD_Send_Cmd (0x40 + index) arg w = Some (res, w') /\
    trace w' =
      trace w ++
      [EvCSHigh; EvRW 0xFF (next_byte (rx w)); EvCSLow] ++
      exchanges (0xFF :: fr) (clocked 7 (skipn 1 (rx w))) ++
      [EvTimerOn 5] ++ wait_events xs ++ poll_end r1_pending res ++
      [EvTimerOff] /\
    sent (trace w') =
      sent (trace w) ++ [0xFF; 0xFF] ++ fr ++ repeat 0xFF (S (length xs)).
Proof.
  intros Hidx crc fr.
  assert (Hfr : fr = frame (0x40 + index) arg).
  { unfold fr, crc, frame. repeat f_equal.
    destruct (Z.eqb_spec index 0) as [-> | N0]; [reflexivity |].
    destruct (Z.eqb_spec (0x40 + index) 0x40); [lia |].
    destruct (Z.eqb_spec index 8) as [-> | N8]; [reflexivity |].
    destruct (Z.eqb_spec (0x40 + index) 0x48); [lia | reflexivity]. }
  rewrite Hfr. clearbody fr. clear Hfr crc.
  rewrite send_cmd_plain by (apply land_bit7_clear; lia).
  destruct (send_cmd_body_runs (0x40 + index) arg w) as (res & w' & E & X).
  destruct (exchanged_trace _ _ _ _ _ X) as (xs & _ & T).
  exists res, w', xs. split; [exact E |]. split; [exact T |].
  rewrite T.
  rewrite !sent_app, sent_exchanges, sent_wait_events, sent_poll_end
    by (rewrite clocked_length; reflexivity).
  cbn [sent flat_map app]. rewrite <- repeat_cons. reflexivity.
Qed.

Lemma command_frame_witness :
  exists res w' (xs : list Z),
    __SD_Send_Cmd (0x40 + 17) 0x12345678 idle = Some (res, w') /\
    sent (trace w') =
      [0xFF; 0xFF; 0x51; 0x12; 0x34; 0x56; 0x78; 0x01]
      ++ repeat 0xFF (S (length xs)).
Proof.
  assert (H : 0 <= 17 < 64) by lia.
  destruct (command_frame 17 0x12345678 idle H) as (res & w' & xs & E & _ & S).
  exists res, w', xs. split; [exact E | exact S].
Defined.

(** C9.  An application command first sends CMD55 with argument 0; when
    the response to it is above 1 that response is the result and the
    transport is left as the CMD55 exchange left it, so the frame of the
    target command is never sent; otherwise the target command follows
    with bit 7 of its index cleared. *)
Theorem app_command_escape (cmd arg : Z) (w : spi) :
  Z.land cmd 0x80 <> 0 ->
  exists r55 w55 n,
    exchanged CMD55 0 w r55 w55 /\
    sent (trace w55) =
      sent (trace w) ++ [0xFF; 0xFF; 0x77; 0; 0; 0; 0; 0x01]
      ++ repeat 0xFF (S n) /\
    (r55 > 1 -> __SD_Send_Cmd cmd arg w = Some (r55, w55)) /\
    (r55 <= 1 ->
     exists res w',
       __SD_Send_Cmd cmd arg w = Some (res, w') /\
       exchanged (Z.land cmd 0x7F) arg w55 res w').
Proof.
  intros Happ.
  destruct (send_cmd_body_runs CMD55 0 w) as (r55 & w55 & E & X).
  destruct (exchanged_sent _ _ _ _ _ X) as (n & S).
  exists r55, w55, n. split; [exact X |]. split; [exact S |].
  rewrite send_cmd_app by assumption.
  rewrite (bind_Some _ _ _ _ _ E). split.
  - intros Hgt. destruct (Z.gtb_spec r55 1); [reflexivity | lia].
  - intros Hle. destruct (Z.gtb_spec r55 1); [lia |].
    destruct (send_cmd_body_runs (Z.land cmd 0x7F) arg w55)
      as (res & w' & E' & X').
    exists res, w'. split; assumption.
Qed.

Lemma app_command_escape_witness :
  exists w55 n,
    __SD_Send_Cmd ACMD41 0 idle = Some (0xFF, w55) /\
    sent (trace w55) = [0xFF; 0xFF; 0x77; 0; 0; 0; 0; 0x01] ++ repeat 0xFF (S n).
Proof.
  assert (H : Z.land ACMD41 0x80 <> 0) by (vm_compute; discriminate).
  destruct (app_command_escape ACMD41 0 idle H) as (r55 & w55 & n & X & S & A & _).
  assert (R : r55 = 0xFF).
  { destruct X as (xs & w4 & P & _).
    inversion P; subst; try reflexivity; discriminate. }
  subst r55. exists w55, n. split; [apply A; lia | exact S].
Defined.

(** ** Status probe *)

Lemma SD_Status_result (w w' : spi) (r : Z) :
  __SD_Send_Cmd CMD0 0 w = Some (r, w') ->
  SD_Status w = Some (if r =? 0 then SD_NORESPONSE else SD_OK, w').
Proof.
  intros E. unfold SD_Status. rewrite (bind_Some _ _ _ _ _ E).
  destruct (r =? 0); reflexivity.
Qed.

(** C2.  On a transport where the card never answers the response of CMD0
    is 0xFF, the byte of a timeout, and the status probe returns SD_OK;
    on a card that answers 0x05, idle with an error flag, it returns SD_OK
    as well, and on a card that answers 0x00 it returns SD_NORESPONSE. *)
Theorem status_probe_nonzero_is_ok :
  (exists w', __SD_Send_Cmd CMD0 0 idle = Some (0xFF, w') /\
              SD_Status idle = Some (SD_OK, w')) /\
  (exists w', __SD_Send_Cmd CMD0 0 (mkSpi (repeat 0xFF 8 ++ [0x05]) [] [])
              = Some (0x05, w') /\
              SD_Status (mkSpi (repeat 0xFF 8 ++ [0x05]) [] [])
              = Some (SD_OK, w')) /\
  (exists w', __SD_Send_Cmd CMD0 0 (mkSpi (repeat 0xFF 8 ++ [0x00]) [] [])
              = Some (0x00, w') /\
              SD_Status (mkSpi (repeat 0xFF 8 ++ [0x00]) [] [])
              = Some (SD_NORESPONSE, w')).
Proof.
  repeat split; eexists; split; vm_compute; reflexivity.
Qed.

(** ** Parameter checks *)

Lemma SD_Read_parerr (dev : SD_DEV) (dat : list Z) (sector ofs cnt : Z)
  (w : spi) :
  sector > last_sector dev \/ cnt = 0 ->
  SD_Read dev dat sector ofs cnt w = Some ((SD_PARERR, dat), w).
Proof.
  intros H. unfold SD_Read.
  destruct (Z.gtb_spec sector (last_sector dev)); [reflexivity |].
  destruct (Z.eqb_spec cnt 0); [reflexivity | lia].
Qed.

Lemma SD_Write_parerr (dev : SD_DEV) (dat : list Z) (sector : Z) (w : spi) :
  sector > last_sector dev ->
  SD_Write dev dat sector w = Some (SD_PARERR, w).
Proof.
  intros H. unfold SD_Write.
  destruct (Z.gtb_spec sector (last_sector dev)); [reflexivity | lia].
Qed.

(** C1, as amended.  Whatever the mount flag of the session, a read with
    a sector above [last_sector] or with a byte count of 0, and a write
    with a sector above [last_sector], return SD_PARERR and leave the
    transport as it was: nothing is exchanged. *)
Theorem param_error_off_the_wire (dev : SD_DEV) (dat : list Z)
  (sector ofs cnt : Z) (w : spi) :
  sector > last_sector dev \/ cnt = 0 ->
  SD_Read dev dat sector ofs cnt w = Some ((SD_PARERR, dat), w) /\
  (sector > last_sector dev ->
   SD_Write dev dat sector w = Some (SD_PARERR, w)).
Proof.
  intros H. split.
  - apply SD_Read_parerr. exact H.
  - apply SD_Write_parerr.
Qed.

Lemma param_error_off_the_wire_witness :
  SD_Read (mkDev TRUE SDCT_SD1 3) [0; 0] 4 0 2 idle
    = Some ((SD_PARERR, [0; 0]), idle) /\
  SD_Write (mkDev TRUE SDCT_SD1 3) [] 4 idle = Some (SD_PARERR, idle).
Proof.
  assert (H : 4 > last_sector (mkDev TRUE SDCT_SD1 3) \/ 2 = 0)
    by (left; cbn; lia).
  destruct (param_error_off_the_wire (mkDev TRUE SDCT_SD1 3) [0; 0] 4 0 2 idle H)
    as [R _].
  assert (H' : 4 > last_sector (mkDev TRUE SDCT_SD1 3) \/ 0 = 0)
    by (left; cbn; lia).
  destruct (param_error_off_the_wire (mkDev TRUE SDCT_SD1 3) [] 4 0 0 idle H')
    as [_ W].
  split; [exact R | apply W; cbn; lia].
Defined.

(** C1, as stated, fails: a session that is not mounted, with a sector
    within [last_sector], is not refused; the command goes out. *)
Lemma unmounted_session_goes_out :
  ~ (forall dev dat sector w,
       mount dev = FALSE ->
       SD_Write dev dat sector w = Some (SD_PARERR, w)) /\
  ~ (forall dev dat sector ofs cnt w,
       mount dev = FALSE ->
       SD_Read dev dat sector ofs cnt w = Some ((SD_PARERR, dat), w)).
Proof.
  split.
  - intros H. specialize (H (mkDev FALSE 0 7) [] 0 idle eq_refl).
    vm_compute in H. discriminate.
  - intros H. specialize (H (mkDev FALSE 0 7) [0] 0 0 1 idle eq_refl).
    vm_compute in H. discriminate.
Qed.

(** ** Sector write *)

Lemma for_idx_send (f : Z -> Z) (n : nat) (from : Z) (w : spi) :
  for_idx from n (fun idx => SPI_RW (f idx) ;; ret tt) w
  = Some (tt, burst (map f (zseq from n)) w).
Proof.
  revert from w. induction n as [| n IH]; intros from w.
  - cbn [for_idx zseq map]. rewrite burst_nil. reflexivity.
  - cbn [for_idx zseq map]. rewrite burst_cons.
    unfold bind at 1. unfold bind at 1. cbn [SPI_RW ret].
    apply IH.
Qed.

Lemma skipn_nth_cons (k : nat) (l : list Z) :
  (k < length l)%nat -> skipn k l = nth k l 0 :: skipn (S k) l.
Proof.
  revert l. induction k as [| k IH]; intros [| h t] H; cbn in H; try lia.
  - reflexivity.
  - cbn [skipn nth]. rewrite IH by lia. reflexivity.
Qed.

Lemma zseq_read (l : list Z) (n k : nat) :
  Forall is_byte l -> (k + n <= length l)%nat ->
  map (fun idx => u8 (nth (Z.to_nat idx) l 0)) (zseq (Z.of_nat k) n)
  = firstn n (skipn k l).
Proof.
  intros Hl. revert k. induction n as [| n IH]; intros k Hk.
  - reflexivity.
  - cbn [zseq map]. rewrite skipn_nth_cons by lia. cbn [firstn].
    rewrite Nat2Z.id.
    replace (Z.of_nat k + 1) with (Z.of_nat (S k)) by lia.
    rewrite IH by lia. f_equal.
    pose proof (nth_is_byte l k Hl) as Hb. unfold is_byte in Hb.
    apply Z.mod_small. exact Hb.
Qed.

(** The bytes sent for a block of 512 bytes are the block. *)
Lemma block_bytes_block (dat : list Z) :
  Forall is_byte dat -> length dat = 512%nat -> block_bytes dat = dat.
Proof.
  intros Hb Hl. unfold block_bytes, SD_BLK_SIZE.
  change 0 with (Z.of_nat 0).
  rewrite zseq_read by (assumption || (rewrite Hl; cbn; lia)).
  cbn [skipn]. rewrite <- Hl at 1.
  replace (Z.to_nat 512) with (length dat) by (rewrite Hl; reflexivity).
  apply firstn_all.
Qed.

Lemma write_wait_runs (w : spi) :
  exists xs line w4,
    polls line_busy (emit (EvTimerOn SD_IO_WRITE_TIMEOUT_WAIT) w) xs line w4 /\
    write_wait w
    = Some (if line =? 0 then SD_BUSY else SD_OK, emit EvTimerOff w4).
Proof.
  destruct (poll_runs line_busy (emit (EvTimerOn SD_IO_WRITE_TIMEOUT_WAIT) w))
    as (xs & line & w4 & E & P).
  exists xs, line, w4. split; [exact P |].
  cbv [write_wait bind SPI_Timer_On SPI_Timer_Off call].
  change (poll _ _)
    with (poll line_busy (emit (EvTimerOn SD_IO_WRITE_TIMEOUT_WAIT) w)).
  rewrite E. destruct (line =? 0); reflexivity.
Qed.

Lemma write_block_to_response (dev : SD_DEV) (dat : list Z) (w : spi) :
  __SD_Write_Block dev dat 0xFE w =
    let W := burst (0xFE :: block_bytes dat ++ [0xFF; 0xFF]) w in
    if negb (Z.land (next_byte (rx W)) 0x1F =? 0x05)
    then Some (SD_REJECT, rw_state 0xFF W)
    else write_wait (rw_state 0xFF W).
Proof.
  unfold __SD_Write_Block. change (negb (0xFE =? 0xFD)) with true. cbv iota.
  rewrite burst_cons, burst_app, !burst_cons, burst_nil.
  unfold bind at 1. cbn [SPI_RW].
  rewrite (bind_Some _ _ _ _ _
             (for_idx_send (fun idx => u8 (nth (Z.to_nat idx) dat 0))
                (Z.to_nat SD_BLK_SIZE) 0 (rw_state 0xFE w))).
  fold (block_bytes dat).
  unfold bind at 1. cbn [SPI_RW].
  unfold bind at 1. cbn [SPI_RW].
  unfold bind at 1. cbn [SPI_RW].
  cbv zeta.
  match goal with |- context [negb ?c] => destruct (negb c) end; reflexivity.
Qed.

(** C5.  In a write transfer the data-response byte decides: when its low
    5 bits are not 0b00101 the result is SD_REJECT and the transport is
    left right after the exchange of that byte, no timer started and no
    byte polled; otherwise the 250 ms timer is started and the line is
    polled while it reads 0 and the timer runs, and the result is SD_BUSY
    when the last byte read is 0, which is when the timer has expired,
    and SD_OK when it is not 0. *)
Theorem write_block_response (dev : SD_DEV) (dat : list Z) (w : spi) :
  let W := burst (0xFE :: block_bytes dat ++ [0xFF; 0xFF]) w in
  let resp := next_byte (rx W) in
  (Z.land resp 0x1F <> 0x05 ->
   __SD_Write_Block dev dat 0xFE w = Some (SD_REJECT, rw_state 0xFF W) /\
   trace (rw_state 0xFF W) = trace W ++ [EvRW 0xFF resp]) /\
  (Z.land resp 0x1F = 0x05 ->
   exists xs line w',
     __SD_Write_Block dev dat 0xFE w
     = Some (if line =? 0 then SD_BUSY else SD_OK, w') /\
     Forall (fun x => x = 0) xs /\
     trace w' =
       trace W ++ [EvRW 0xFF resp; EvTimerOn 250] ++ wait_events xs ++
       EvRW 0xFF line :: (if line =? 0 then [EvTimerStatus false] else []) ++
       [EvTimerOff]).
Proof.
  intros W resp. rewrite write_block_to_response. fold W. cbv zeta. fold resp.
  split.
  - intros Hrej.
    destruct (Z.eqb_spec (Z.land resp 0x1F) 0x05); [contradiction |].
    split; reflexivity.
  - intros Hacc. rewrite Hacc. cbn [Z.eqb Pos.eqb negb].
    destruct (write_wait_runs (rw_state 0xFF W)) as (xs & line & w4 & P & E).
    exists xs, line, (emit EvTimerOff w4). split; [exact E |]. split.
    + pose proof (polls_waited _ _ _ _ _ P) as Hw.
      eapply Forall_impl; [| exact Hw].
      intros x Hx. unfold line_busy in Hx. apply Z.eqb_eq. exact Hx.
    + cbn [emit trace]. rewrite (polls_trace _ _ _ _ _ P).
      cbn [emit rw_state trace]. fold resp. unfold poll_end, line_busy.
      rewrite <- !app_assoc. reflexivity.
Qed.

Lemma write_block_response_witness :
  option_map fst
    (__SD_Write_Block (mkDev TRUE SDCT_SD1 9) (repeat 0xA5 512) 0xFE
       (mkSpi (repeat 0xFF 515 ++ [0x0B; 0x01]) [true] []))
  = Some SD_REJECT /\
  option_map fst
    (__SD_Write_Block (mkDev TRUE SDCT_SD1 9) (repeat 0xA5 512) 0xFE
       (mkSpi (repeat 0xFF 515 ++ [0xE5; 0x00; 0x00; 0x01]) [true; true] []))
  = Some SD_OK /\
  option_map fst
    (__SD_Write_Block (mkDev TRUE SDCT_SD1 9) (repeat 0xA5 512) 0xFE
       (mkSpi (repeat 0xFF 515 ++ [0xE5; 0x00; 0x00; 0x01]) [true] []))
  = Some SD_BUSY.
Proof.
  set (dev := mkDev TRUE SDCT_SD1 9). set (dat := repeat 0xA5 512).
  split; [| split].
  - destruct (write_block_response dev dat
                (mkSpi (repeat 0xFF 515 ++ [0x0B; 0x01]) [true] []))
      as [R _].
    destruct R as [E _]; [vm_compute; discriminate |].
    rewrite E. reflexivity.
  - destruct (write_block_response dev dat
                (mkSpi (repeat 0xFF 515 ++ [0xE5; 0x00; 0x00; 0x01])
                       [true; true] []))
      as [_ A].
    destruct A as (xs & line & w' & E & _ & _); [vm_compute; reflexivity |].
    pose proof E as E'. vm_compute in E'. injection E' as H _.
    rewrite E. cbn [option_map fst]. f_equal. symmetry. exact H.
  - destruct (write_block_response dev dat
                (mkSpi (repeat 0xFF 515 ++ [0xE5; 0x00; 0x00; 0x01])
                       [true] []))
      as [_ A].
    destruct A as (xs & line & w' & E & _ & _); [vm_compute; reflexivity |].
    pose proof E as E'. vm_compute in E'. injection E' as H _.
    rewrite E. cbn [option_map fst]. f_equal. symmetry. exact H.
Defined.

(** The write is refused as a parameter error exactly when the sector is
    above [last_sector]. *)
Lemma SD_Write_parerr_iff (dev : SD_DEV) (dat : list Z) (sector : Z)
  (w : spi) :
  option_map fst (SD_Write dev dat sector w) = Some SD_PARERR
  <-> sector > last_sector dev.
Proof.
  split.
  - intros H. destruct (Z.gtb_spec sector (last_sector dev)) as [G | L];
      [lia |]. exfalso. revert H. unfold SD_Write.
    destruct (Z.gtb_spec sector (last_sector dev)); [lia |].
    destruct (steady_send_cmd CMD24 (u32 (sector * SD_BLK_SIZE)) w)
      as (r & w1 & E & _).
    rewrite (bind_Some _ _ _ _ _ E).
    destruct (r =? 0); [| discriminate].
    rewrite write_block_to_response. cbv zeta.
    match goal with |- context [negb ?c] => destruct (negb c) end;
      [discriminate |].
    match goal with |- context [write_wait ?W] =>
      destruct (write_wait_runs W) as (xs & line & w4 & _ & Ew)
    end.
    rewrite Ew. destruct (line =? 0); discriminate.
  - intros H. rewrite SD_Write_parerr by assumption. reflexivity.
Qed.

(** ** Sector read *)

Lemma exchanges_repeat (d : Z) (ins : list Z) :
  exchanges (repeat d (length ins)) ins = map (EvRW d) ins.
Proof.
  unfold exchanges. induction ins as [| i ins IH]; [reflexivity |].
  cbn [length repeat combine map fst snd]. rewrite IH. reflexivity.
Qed.

Lemma burst_idle_trace (n : nat) (w : spi) :
  trace (burst (repeat 0xFF n) w) = trace w ++ map (EvRW 0xFF) (clocked n (rx w)).
Proof.
  unfold burst. cbn [trace]. rewrite repeat_length.
  rewrite <- (exchanges_repeat 0xFF (clocked n (rx w))), clocked_length.
  reflexivity.
Qed.

Lemma burst_idle_rx (n : nat) (w : spi) :
  rx (burst (repeat 0xFF n) w) = skipn n (rx w).
Proof. unfold burst. cbn [rx]. rewrite repeat_length. reflexivity. Qed.

Lemma skip_loop_spec (fuel : nat) (n : Z) (w : spi) :
  1 <= n < 65536 -> n <= Z.of_nat fuel ->
  skip_loop fuel n w = Some (tt, burst (repeat 0xFF (Z.to_nat n)) w).
Proof.
  revert n w. induction fuel as [| fuel IH]; intros n w Hn Hf; [lia |].
  cbn [skip_loop]. unfold bind at 1. cbn [SPI_RW].
  unfold u16. rewrite (Z.mod_small (n - 1)) by lia.
  replace (Z.to_nat n) with (S (Z.to_nat (n - 1))) by lia.
  cbn [repeat]. rewrite burst_cons.
  destruct (Z.eqb_spec (n - 1) 0) as [E | N]; cbn [negb].
  - rewrite E. cbn [Z.to_nat repeat]. rewrite burst_nil. reflexivity.
  - apply IH; lia.
Qed.

Lemma recv_loop_spec (fuel : nat) (buf : list Z) (pos : nat) (cnt : Z)
  (w : spi) :
  1 <= cnt < 65536 -> cnt <= Z.of_nat fuel ->
  recv_loop fuel buf pos cnt w
  = Some (store_all pos (clocked (Z.to_nat cnt) (rx w)) buf,
          burst (repeat 0xFF (Z.to_nat cnt)) w).
Proof.
  revert buf pos cnt w.
  induction fuel as [| fuel IH]; intros buf pos cnt w Hn Hf; [lia |].
  cbn [recv_loop]. unfold bind at 1. cbn [SPI_RW].
  unfold u16. rewrite (Z.mod_small (cnt - 1)) by lia.
  replace (Z.to_nat cnt) with (S (Z.to_nat (cnt - 1))) by lia.
  cbn [repeat clocked store_all]. rewrite burst_cons.
  destruct (Z.eqb_spec (cnt - 1) 0) as [E | N]; cbn [negb].
  - rewrite E. cbn [Z.to_nat repeat clocked store_all]. rewrite burst_nil.
    reflexivity.
  - rewrite IH by lia. reflexivity.
Qed.

Lemma store_length (pos : nat) (v : Z) (buf : list Z) :
  length (store pos v buf) = length buf.
Proof.
  revert pos. induction buf as [| h t IH]; intros [| pos]; cbn; auto.
Qed.

Lemma store_at (done : list Z) (v h : Z) (rest : list Z) :
  store (length done) v (done ++ h :: rest) = done ++ v :: rest.
Proof.
  induction done as [| d done IH]; [reflexivity |].
  cbn [length app store]. rewrite IH. reflexivity.
Qed.

(** Storing [bs] behind what was stored before replaces as many bytes of
    the buffer as there are in [bs]. *)
Lemma store_all_at (done bs rest : list Z) :
  (length bs <= length rest)%nat ->
  store_all (length done) bs (done ++ rest)
  = done ++ bs ++ skipn (length bs) rest.
Proof.
  revert done rest. induction bs as [| b bs IH]; intros done rest Hlen.
  - reflexivity.
  - destruct rest as [| h rest]; [cbn in Hlen; lia |].
    cbn [store_all length skipn app]. rewrite store_at.
    replace (done ++ b :: rest) with ((done ++ [b]) ++ rest)
      by (rewrite <- app_assoc; reflexivity).
    replace (S (length done)) with (length (done ++ [b]))
      by (rewrite length_app; cbn; lia).
    rewrite IH by (cbn in Hlen; lia).
    rewrite <- app_assoc. reflexivity.
Qed.

Lemma store_all_front (bs buf : list Z) :
  (length bs <= length buf)%nat ->
  store_all 0 bs buf = bs ++ skipn (length bs) buf.
Proof. intros H. apply (store_all_at [] bs buf H). Qed.

Lemma read_data_runs (dat : list Z) (ofs cnt : Z) (w : spi) :
  0 <= ofs <= 511 -> 1 <= cnt <= 512 -> ofs + cnt <= 512 ->
  read_data dat ofs cnt w
  = Some (store_all 0 (clocked (Z.to_nat cnt) (skipn (Z.to_nat ofs) (rx w))) dat,
          burst (repeat 0xFF 514) w).
Proof.
  intros Ho Hc Hs. unfold read_data, SD_BLK_SIZE.
  assert (Hu : (Z.of_nat u16_iters = 65536)) by (unfold u16_iters; lia).
  unfold u16. rewrite (Z.mod_small (512 + 2 - ofs - cnt)) by lia.
  replace 514%nat
    with (Z.to_nat ofs + (Z.to_nat cnt + Z.to_nat (512 + 2 - ofs - cnt)))%nat
    by lia.
  rewrite !repeat_app, !burst_app.
  assert (Hskip :
    (if negb (ofs =? 0) then skip_loop u16_iters ofs else ret tt) w
    = Some (tt, burst (repeat 0xFF (Z.to_nat ofs)) w)).
  { destruct (Z.eqb_spec ofs 0) as [-> | N]; cbn [negb].
    - cbn [Z.to_nat repeat]. rewrite burst_nil. reflexivity.
    - apply skip_loop_spec; lia. }
  rewrite (bind_Some _ _ _ _ _ Hskip).
  erewrite bind_Some by (apply recv_loop_spec; lia).
  erewrite bind_Some by (apply skip_loop_spec; lia).
  rewrite burst_idle_rx. reflexivity.
Qed.

Lemma wait_token_runs (w : spi) :
  exists xs tkn w2,
    polls token_pending (emit (EvTimerOn 100) w) xs tkn w2 /\
    wait_token w = Some (tkn, emit EvTimerOff w2).
Proof.
  destruct (poll_runs token_pending (emit (EvTimerOn 100) w))
    as (xs & tkn & w2 & E & P).
  exists xs, tkn, w2. split; [exact P |].
  cbv [wait_token bind SPI_Timer_On SPI_Timer_Off call].
  change (poll _ _) with (poll token_pending (emit (EvTimerOn 100) w)).
  rewrite E. reflexivity.
Qed.

(** The read once the parameters passed and CMD17 was answered with 0. *)
Lemma SD_Read_accepted (dev : SD_DEV) (dat : list Z) (sector ofs cnt : Z)
  (w w1 w2 : spi) (tkn : Z) :
  sector <= last_sector dev -> cnt <> 0 ->
  __SD_Send_Cmd CMD17 (u32 (sector * SD_BLK_SIZE)) w = Some (0, w1) ->
  wait_token w1 = Some (tkn, w2) ->
  SD_Read dev dat sector ofs cnt w =
    if tkn =? 0xFE
    then match read_data dat ofs cnt w2 with
         | Some (dat', w3) => Some ((SD_OK, dat'), emit EvRelease w3)
         | None => None
         end
    else Some ((SD_ERROR, dat), emit EvRelease w2).
Proof.
  intros Hs Hc E1 E2. unfold SD_Read.
  destruct (Z.gtb_spec sector (last_sector dev)); [lia |].
  destruct (Z.eqb_spec cnt 0); [contradiction |]. cbn [orb].
  rewrite (bind_Some _ _ _ _ _ E1). cbn [Z.eqb].
  unfold bind at 1. unfold bind at 1. rewrite E2.
  destruct (tkn =? 0xFE).
  - unfold bind at 1. destruct (read_data dat ofs cnt w2) as [[dat' w3] |];
      reflexivity.
  - reflexivity.
Qed.

Lemma clocked_firstn (a b : nat) (l : list Z) :
  firstn a (clocked (a + b) l) = clocked a l.
Proof.
  rewrite clocked_app.
  rewrite <- (clocked_length a l) at 1.
  rewrite firstn_app, firstn_all, Nat.sub_diag. cbn [firstn].
  apply app_nil_r.
Qed.

Lemma clocked_skipn (a b : nat) (l : list Z) :
  skipn a (clocked (a + b) l) = clocked b (skipn a l).
Proof.
  rewrite clocked_app.
  rewrite <- (clocked_length a l) at 1.
  rewrite skipn_app, skipn_all, Nat.sub_diag. reflexivity.
Qed.

Lemma wait_token_seen (w w2 : spi) :
  wait_token w = Some (0xFE, w2) ->
  exists pre, trace w2 = pre ++ [EvRW 0xFF 0xFE; EvTimerOff].
Proof.
  intros E. destruct (wait_token_runs w) as (xs & tkn & w2' & P & E').
  rewrite E in E'. injection E' as <- ->.
  exists (trace w ++ [EvTimerOn 100] ++ wait_events xs).
  cbn [emit trace]. rewrite (polls_trace _ _ _ _ _ P).
  cbn [emit trace poll_end token_pending Z.eqb Pos.eqb].
  rewrite <- !app_assoc. reflexivity.
Qed.

(** C6.  For an offset in 0..511 and a count in 1..512 with offset + count
    <= 512, a read whose command was accepted and whose start token was
    seen returns SD_OK after exactly 512 + 2 = 514 exchanges behind the
    token: [ofs] bytes skipped, [cnt] bytes stored at the front of the
    destination, and 512 + 2 - ofs - cnt bytes discarded. *)
Theorem read_clocks_514 (dev : SD_DEV) (dat : list Z) (sector ofs cnt : Z)
  (w w1 w2 : spi) :
  0 <= ofs <= 511 -> 1 <= cnt <= 512 -> ofs + cnt <= 512 ->
  (Z.to_nat cnt <= length dat)%nat ->
  sector <= last_sector dev ->
  __SD_Send_Cmd CMD17 (u32 (sector * SD_BLK_SIZE)) w = Some (0, w1) ->
  wait_token w1 = Some (0xFE, w2) ->
  let data := clocked 514 (rx w2) in
  let skipped := firstn (Z.to_nat ofs) data in
  let payload := firstn (Z.to_nat cnt) (skipn (Z.to_nat ofs) data) in
  let trailing := skipn (Z.to_nat cnt) (skipn (Z.to_nat ofs) data) in
  exists w' pre,
    SD_Read dev dat sector ofs cnt w
    = Some ((SD_OK, payload ++ skipn (Z.to_nat cnt) dat), w') /\
    trace w2 = pre ++ [EvRW 0xFF 0xFE; EvTimerOff] /\
    trace w' =
      trace w2 ++ map (EvRW 0xFF) (skipped ++ payload ++ trailing)
      ++ [EvRelease] /\
    length skipped = Z.to_nat ofs /\
    length payload = Z.to_nat cnt /\
    length trailing = Z.to_nat (512 + 2 - ofs - cnt) /\
    length (skipped ++ payload ++ trailing) = 514%nat /\
    rx w' = skipn 514 (rx w2).
Proof.
  intros Ho Hc Hs Hlen Hsec E1 E2 data skipped payload trailing.
  assert (Hdata : skipped ++ payload ++ trailing = data).
  { unfold skipped, payload, trailing. rewrite firstn_skipn.
    apply firstn_skipn. }
  assert (Hpay : payload = clocked (Z.to_nat cnt) (skipn (Z.to_nat ofs) (rx w2))).
  { unfold payload, data.
    replace 514%nat
      with (Z.to_nat ofs + (Z.to_nat cnt + Z.to_nat (512 + 2 - ofs - cnt)))%nat
      by lia.
    rewrite clocked_skipn, clocked_firstn. reflexivity. }
  assert (Ldata : length data = 514%nat) by apply clocked_length.
  destruct (wait_token_seen _ _ E2) as (pre & Hpre).
  exists (emit EvRelease (burst (repeat 0xFF 514) w2)), pre.
  split.
  { rewrite (SD_Read_accepted dev dat sector ofs cnt w w1 w2 0xFE)
      by (assumption || lia).
    cbn [Z.eqb Pos.eqb]. rewrite read_data_runs by assumption.
    rewrite store_all_front by (rewrite clocked_length; exact Hlen).
    rewrite clocked_length, <- Hpay. reflexivity. }
  split; [exact Hpre |].
  split.
  { cbn [emit trace]. rewrite burst_idle_trace, Hdata, <- app_assoc.
    reflexivity. }
  assert (L1 : length skipped = Z.to_nat ofs).
  { unfold skipped. rewrite length_firstn, Ldata. lia. }
  assert (L2 : length payload = Z.to_nat cnt).
  { rewrite Hpay. apply clocked_length. }
  split; [exact L1 |]. split; [exact L2 |].
  split.
  { assert (L : length (skipped ++ payload ++ trailing) = 514%nat)
      by (rewrite Hdata; exact Ldata).
    rewrite !length_app in L. lia. }
  split; [rewrite Hdata; exact Ldata |].
  cbn [emit rx]. apply burst_idle_rx.
Qed.

Lemma SD_Read_ok_inv (dev : SD_DEV) (dat dat' : list Z) (sector ofs cnt : Z)
  (w w' : spi) :
  SD_Read dev dat sector ofs cnt w = Some ((SD_OK, dat'), w') ->
  sector <= last_sector dev /\ cnt <> 0 /\
  exists w1 w2,
    __SD_Send_Cmd CMD17 (u32 (sector * SD_BLK_SIZE)) w = Some (0, w1) /\
    wait_token w1 = Some (0xFE, w2).
Proof.
  intros E.
  destruct (Z.gtb_spec sector (last_sector dev)) as [Hgt | Hle].
  { rewrite SD_Read_parerr in E by (left; lia). discriminate. }
  destruct (Z.eq_dec cnt 0) as [Hz | Hnz].
  { rewrite SD_Read_parerr in E by (right; assumption). discriminate. }
  split; [exact Hle |]. split; [exact Hnz |].
  destruct (steady_send_cmd CMD17 (u32 (sector * SD_BLK_SIZE)) w)
    as (r & w1 & E1 & _).
  destruct (Z.eq_dec r 0) as [-> | Hr].
  - destruct (wait_token_runs w1) as (xs & tkn & w2 & _ & E2).
    rewrite (SD_Read_accepted dev dat sector ofs cnt w w1 _ tkn Hle Hnz E1 E2)
      in E.
    destruct (Z.eqb_spec tkn 0xFE) as [-> | Ht]; [| discriminate].
    exists w1, (emit EvTimerOff w2). split; assumption.
  - unfold SD_Read in E.
    destruct (Z.gtb_spec sector (last_sector dev)); [lia |].
    destruct (Z.eqb_spec cnt 0); [contradiction |]. cbn [orb] in E.
    rewrite (bind_Some _ _ _ _ _ E1) in E.
    destruct (Z.eqb_spec r 0); [contradiction |].
    cbv [bind ret SPI_Release call] in E. discriminate.
Qed.

Lemma read_clocks_514_witness :
  exists w',
    SD_Read (mkDev TRUE SDCT_SD1 9) [0; 0; 0] 4 2 3
      (mkSpi (reply 0 ++ [0xFF; 0xFE] ++ map Z.of_nat (seq 1 514))
             [true; true] [])
    = Some ((SD_OK, [3; 4; 5]), w') /\
    rx w' = [].
Proof.
  set (dev := mkDev TRUE SDCT_SD1 9).
  set (w := mkSpi (reply 0 ++ [0xFF; 0xFE] ++ map Z.of_nat (seq 1 514))
                  [true; true] []).
  assert (Ho : 0 <= 2 <= 511) by lia.
  assert (Hc : 1 <= 3 <= 512) by lia.
  assert (Hs : 2 + 3 <= 512) by lia.
  assert (Hl : (Z.to_nat 3 <= length [0; 0; 0])%nat) by (cbn; lia).
  assert (Hsec : 4 <= last_sector dev) by (cbn; lia).
  eassert (E1 : __SD_Send_Cmd CMD17 (u32 (4 * SD_BLK_SIZE)) w = Some (0, _))
    by (vm_compute; reflexivity).
  match type of E1 with
  | _ = Some (_, ?w1) =>
      eassert (E2 : wait_token w1 = Some (0xFE, _)) by (vm_compute; reflexivity)
  end.
  destruct (read_clocks_514 dev [0; 0; 0] 4 2 3 w _ _ Ho Hc Hs Hl Hsec E1 E2)
    as (w' & pre & E & _ & _ & _ & _ & _ & _ & Erx).
  exists w'. split; [exact E | exact Erx].
Defined.

(** C4, as amended.  Once CMD17 is accepted the read starts the 100 ms
    timer and polls: every 0xFF byte read while the timer runs is
    discarded; polling ends at the first byte that is not 0xFF, or at a
    0xFF byte read when the timer has expired.  The byte [tkn] that ended
    the polling decides: 0xFE starts the transfer, every other value, the
    0xFF of a timeout and any other byte alike, is the generic disk
    error. *)
Theorem token_wait_ends_on_first_byte (dev : SD_DEV) (dat : list Z)
  (sector ofs cnt : Z) (w w1 : spi) :
  sector <= last_sector dev -> cnt <> 0 ->
  __SD_Send_Cmd CMD17 (u32 (sector * SD_BLK_SIZE)) w = Some (0, w1) ->
  exists xs tkn w2,
    wait_token w1 = Some (tkn, w2) /\
    Forall (fun x => x = 0xFF) xs /\
    trace w2 =
      trace w1 ++ [EvTimerOn 100] ++ wait_events xs ++
      EvRW 0xFF tkn :: (if tkn =? 0xFF then [EvTimerStatus false] else []) ++
      [EvTimerOff] /\
    (tkn <> 0xFE ->
     SD_Read dev dat sector ofs cnt w
     = Some ((SD_ERROR, dat), emit EvRelease w2)) /\
    (tkn = 0xFE ->
     0 <= ofs <= 511 -> 1 <= cnt <= 512 -> ofs + cnt <= 512 ->
     exists dat' w',
       SD_Read dev dat sector ofs cnt w = Some ((SD_OK, dat'), w')).
Proof.
  intros Hsec Hcnt E1.
  destruct (wait_token_runs w1) as (xs & tkn & w2 & P & E2).
  exists xs, tkn, (emit EvTimerOff w2). split; [exact E2 |]. split.
  { pose proof (polls_waited _ _ _ _ _ P) as Hw.
    eapply Forall_impl; [| exact Hw].
    intros x Hx. unfold token_pending in Hx. apply Z.eqb_eq. exact Hx. }
  split.
  { cbn [emit trace]. rewrite (polls_trace _ _ _ _ _ P).
    cbn [emit trace]. unfold poll_end, token_pending.
    rewrite <- !app_assoc. reflexivity. }
  rewrite (SD_Read_accepted dev dat sector ofs cnt w w1 _ tkn Hsec Hcnt E1 E2).
  split.
  - intros Hne. destruct (Z.eqb_spec tkn 0xFE); [contradiction | reflexivity].
  - intros -> Ho Hc Hs. cbn [Z.eqb Pos.eqb].
    rewrite read_data_runs by assumption. eexists _, _. reflexivity.
Qed.

Lemma token_wait_ends_on_first_byte_witness :
  exists w',
    SD_Read (mkDev TRUE SDCT_SD1 9) [0] 0 0 1
      (mkSpi (reply 0 ++ [0xFF; 0x0B; 0xFE]) [true; true] [])
    = Some ((SD_ERROR, [0]), w') /\
    rx w' = [0xFE] /\ tmr w' = [true].
Proof.
  set (dev := mkDev TRUE SDCT_SD1 9).
  set (w := mkSpi (reply 0 ++ [0xFF; 0x0B; 0xFE]) [true; true] []).
  assert (Hsec : 0 <= last_sector dev) by (cbn; lia).
  assert (Hcnt : 1 <> 0) by lia.
  eassert (E1 : __SD_Send_Cmd CMD17 (u32 (0 * SD_BLK_SIZE)) w = Some (0, _))
    by (vm_compute; reflexivity).
  destruct (token_wait_ends_on_first_byte dev [0] 0 0 1 w _ Hsec Hcnt E1)
    as (xs & tkn & w2 & E2 & _ & _ & Herr & _).
  vm_compute in E2. injection E2 as <- <-.
  eexists. split; [apply Herr; lia |]. split; reflexivity.
Defined.

(** C4, as stated, fails: the card answers CMD17 with 0, then sends the
    byte 0x00 and after it the start token 0xFE and a block, all while the
    timer runs.  The read ends at the byte 0x00 with the generic disk
    error; the token is still on the line and the timer has not
    expired. *)
Lemma token_wait_not_until_token :
  exists w',
    SD_Read (mkDev TRUE SDCT_SD1 9) (repeat 0 512) 0 0 512
      (mkSpi (reply 0 ++ [0x00; 0xFE] ++ repeat 0xAA 514)
             [true; true; true] [])
    = Some ((SD_ERROR, repeat 0 512), w') /\
    rx w' = 0xFE :: repeat 0xAA 514 /\
    tmr w' = [true; true; true].
Proof.
  eexists. split; [vm_compute; reflexivity |]. split; reflexivity.
Qed.

(** ** Initialization *)

Lemma ticking_ret_false : ticking (ret false).
Proof.
  intros w. exists false, w. split; [reflexivity |].
  split; [lia | discriminate].
Qed.

Lemma ticking_after_steady {A} (m : io A) (k : A -> io bool) :
  steady m -> (forall a, ticking (k a)) -> ticking (bind m k).
Proof.
  intros Hm Hk w.
  destruct (Hm w) as (a & w1 & E1 & L1).
  destruct (Hk a w1) as (b & w2 & E2 & L2 & D2).
  exists b, w2. split; [| split].
  - rewrite (bind_Some _ _ _ _ _ E1). exact E2.
  - lia.
  - intros Hb. specialize (D2 Hb). lia.
Qed.

Lemma ticking_status_then (k : io bool) :
  steady k ->
  ticking (s <- SPI_Timer_Status ;; if s then k else ret false).
Proof.
  intros Hk w. unfold bind at 1. cbn [SPI_Timer_Status].
  destruct (hd false (tmr w)) eqn:Et.
  - destruct (Hk (ts_state w)) as (b & w2 & E2 & L2).
    exists b, w2. split; [exact E2 |].
    pose proof (hd_true_length _ Et) as Hlt. cbn [ts_state tmr] in L2.
    split; [lia | intros _; lia].
  - exists false, (ts_state w). split; [reflexivity |].
    cbn [ts_state tmr]. split; [apply tl_length_le | discriminate].
Qed.

Ltac steady_step :=
  match goal with
  | |- steady (bind _ _) => apply steady_bind; [| intros ?]
  | |- steady (if ?c then _ else _) => destruct c
  | |- steady (timed _) => apply steady_timed_while
  | |- ticking (bind SPI_Timer_Status _) => apply ticking_status_then
  | |- ticking (bind _ _) => apply ticking_after_steady; [| intros ?]
  | |- ticking (if ?c then _ else _) => destruct c
  | |- ticking (ret false) => apply ticking_ret_false
  | |- ticking SPI_Timer_Status => apply ticking_SPI_Timer_Status
  | |- steady (for_idx _ _ _) => apply steady_for_idx; intros ?
  | |- steady _ => solve [auto with steady]
  end.

Lemma steady_init_attempt (dev : SD_DEV) : steady (init_attempt dev).
Proof.
  unfold init_attempt, SPI_Init, SPI_CS_High, SPI_Freq_Low, SPI_Timer_On,
    SPI_Timer_Off.
  repeat steady_step.
Qed.

Lemma init_loop_runs (fuel : nat) (init_trys ct : Z) (dev : SD_DEV) :
  0 <= init_trys <= SD_INIT_TRYS ->
  SD_INIT_TRYS - init_trys < Z.of_nat fuel ->
  steady (init_loop fuel init_trys ct dev).
Proof.
  unfold SD_INIT_TRYS. revert init_trys ct dev.
  induction fuel as [| fuel IH]; intros init_trys ct dev Ht Hf; [lia |].
  cbn [init_loop]. unfold SD_INIT_TRYS.
  destruct (Z.eqb_spec init_trys 3) as [E | N]; cbn [negb andb].
  - apply steady_ret.
  - destruct (ct =? 0); [| apply steady_ret].
    apply steady_bind; [apply steady_init_attempt | intros r].
    apply IH; unfold u8; rewrite Z.mod_small; lia.
Qed.

Lemma SD_Sectors_refused (dev : SD_DEV) (w w2 : spi) (r : Z) :
  __SD_Send_Cmd CMD9 0 w = Some (r, w2) -> r <> 0 ->
  __SD_Sectors dev w = Some (0, w2).
Proof.
  intros E Hr. unfold __SD_Sectors. rewrite (bind_Some _ _ _ _ _ E).
  destruct (Z.eqb_spec r 0); [contradiction | reflexivity].
Qed.

(** C10.  Initialization always comes back from the negotiation, with a
    card type [ct].  With a card type detected it returns SD_OK with the
    session mounted and [last_sector] set to the sector count minus one
    modulo 2^16, whatever the sector count, and a write is refused as a
    parameter error exactly above this truncated value; when the card
    refuses the read of its descriptor the sector count is 0 and
    [last_sector] is 0xFFFF. *)
Theorem init_last_sector_truncated (dev : SD_DEV) (w : spi) :
  exists ct dev1 w1,
    init_loop (S (Z.to_nat SD_INIT_TRYS)) 0 0 dev w = Some ((ct, dev1), w1) /\
    (ct <> 0 ->
     (forall ss w2,
        __SD_Sectors (mkDev TRUE ct (last_sector dev1)) w1 = Some (ss, w2) ->
        SD_Init dev w
        = Some ((SD_OK, mkDev TRUE ct ((ss - 1) mod 65536)),
                emit EvRelease (emit EvFreqHigh w2)) /\
        forall dat sector w3,
          option_map fst
            (SD_Write (mkDev TRUE ct ((ss - 1) mod 65536)) dat sector w3)
          = Some SD_PARERR
          <-> sector > (ss - 1) mod 65536) /\
     (forall r w2,
        __SD_Send_Cmd CMD9 0 w1 = Some (r, w2) -> r <> 0 ->
        SD_Init dev w
        = Some ((SD_OK, mkDev TRUE ct 0xFFFF),
                emit EvRelease (emit EvFreqHigh w2)))).
Proof.
  destruct (init_loop_runs (S (Z.to_nat SD_INIT_TRYS)) 0 0 dev) with (w := w)
    as ([ct dev1] & w1 & E & _); try (unfold SD_INIT_TRYS; lia).
  exists ct, dev1, w1. split; [exact E |].
  intros Hct.
  assert (Hfin : forall ss w2,
            __SD_Sectors (mkDev TRUE ct (last_sector dev1)) w1 = Some (ss, w2) ->
            SD_Init dev w
            = Some ((SD_OK, mkDev TRUE ct ((ss - 1) mod 65536)),
                    emit EvRelease (emit EvFreqHigh w2))).
  { intros ss w2 Es. unfold SD_Init. rewrite (bind_Some _ _ _ _ _ E).
    cbn [fst snd].
    destruct (Z.eqb_spec ct 0); [contradiction |]. cbn [negb].
    cbn [mount cardtype last_sector].
    unfold bind at 1. unfold bind at 1. rewrite Es. reflexivity. }
  split.
  - intros ss w2 Es. split; [apply Hfin; exact Es |].
    intros dat sector w3. apply SD_Write_parerr_iff.
  - intros r w2 E9 Hr.
    apply (Hfin 0 w2). apply (SD_Sectors_refused _ _ _ r); assumption.
Qed.

Lemma init_last_sector_truncated_witness :
  (exists w',
     SD_Init (mkDev FALSE 0 0) (mkSpi sd1_negotiation sd1_timer [])
     = Some ((SD_OK, mkDev TRUE SDCT_SD1 0xFFFF), w')) /\
  (exists w',
     SD_Init (mkDev FALSE 0 0)
       (mkSpi (sd1_negotiation ++ reply 0 ++ [0xFF; 0xFE] ++ csd_v1_65600
               ++ [0; 0]) sd1_timer [])
     = Some ((SD_OK, mkDev TRUE SDCT_SD1 63), w') /\
     option_map fst (SD_Write (mkDev TRUE SDCT_SD1 63) [] 64 w')
     = Some SD_PARERR).
Proof.
  split.
  - destruct (init_last_sector_truncated (mkDev FALSE 0 0)
                (mkSpi sd1_negotiation sd1_timer []))
      as (ct & dev1 & w1 & E & H).
    vm_compute in E. injection E as <- <- <-.
    destruct H as [_ H]; [vm_compute; discriminate |].
    eexists. eapply H; [vm_compute; reflexivity | lia].
  - destruct (init_last_sector_truncated (mkDev FALSE 0 0)
                (mkSpi (sd1_negotiation ++ reply 0 ++ [0xFF; 0xFE]
                        ++ csd_v1_65600 ++ [0; 0]) sd1_timer []))
      as (ct & dev1 & w1 & E & H).
    vm_compute in E. injection E as <- <- <-.
    destruct H as [H _]; [vm_compute; discriminate |].
    edestruct H as [Ei Ew]; [vm_compute; reflexivity |].
    eexists. split; [exact Ei |]. apply (proj2 (Ew [] 64 _)). reflexivity.
Defined.

(** ** Which operations return

    The status probe, the sector write and the sector read return on
    every transport.  Initialization returns unless the card accepts CMD9
    and then never sends anything but 0xFF: the wait for the descriptor has
    no timeout. *)

Lemma steady_SD_Status : steady SD_Status.
Proof. unfold SD_Status. repeat steady_step. Qed.

Lemma steady_write_wait : steady write_wait.
Proof.
  unfold write_wait, SPI_Timer_On, SPI_Timer_Off. repeat steady_step.
Qed.

Lemma steady_SD_Write (dev : SD_DEV) (dat : list Z) (sector : Z) :
  steady (SD_Write dev dat sector).
Proof.
  unfold SD_Write, __SD_Write_Block. pose proof steady_write_wait.
  repeat steady_step.
Qed.

Lemma steady_skip_loop (fuel : nat) (n : Z) :
  u16 (n - 1) < Z.of_nat fuel -> steady (skip_loop fuel n).
Proof.
  revert n. induction fuel as [| fuel IH]; intros n Hf.
  - unfold u16 in Hf. dlia.
  - cbn [skip_loop]. apply steady_bind; [apply steady_SPI_RW | intros _].
    destruct (Z.eqb_spec (u16 (n - 1)) 0); cbn [negb]; [apply steady_ret |].
    apply IH. unfold u16 in *. dlia.
Qed.

Lemma steady_recv_loop (fuel : nat) (buf : list Z) (pos : nat) (cnt : Z) :
  u16 (cnt - 1) < Z.of_nat fuel -> steady (recv_loop fuel buf pos cnt).
Proof.
  revert buf pos cnt. induction fuel as [| fuel IH]; intros buf pos cnt Hf.
  - unfold u16 in Hf. dlia.
  - cbn [recv_loop]. apply steady_bind; [apply steady_SPI_RW | intros b].
    destruct (Z.eqb_spec (u16 (cnt - 1)) 0); cbn [negb]; [apply steady_ret |].
    apply IH. unfold u16 in *. dlia.
Qed.

Lemma u16_below_iters (n : Z) : u16 n < Z.of_nat u16_iters.
Proof. unfold u16, u16_iters. dlia. Qed.

Lemma steady_read_data (dat : list Z) (ofs cnt : Z) :
  steady (read_data dat ofs cnt).
Proof.
  unfold read_data.
  pose proof (fun n => steady_skip_loop u16_iters n (u16_below_iters _)).
  pose proof (fun buf pos n =>
                steady_recv_loop u16_iters buf pos n (u16_below_iters _)).
  repeat steady_step.
Qed.

Lemma steady_SD_Read (dev : SD_DEV) (dat : list Z) (sector ofs cnt : Z) :
  steady (SD_Read dev dat sector ofs cnt).
Proof.
  unfold SD_Read, wait_token, SPI_Timer_On, SPI_Timer_Off, SPI_Release.
  pose proof (steady_read_data dat ofs cnt).
  repeat steady_step.
Qed.

(** A card that accepts CMD9 and then stays silent: the wait for the
    descriptor never ends. *)
Example SD_Sectors_silent_card :
  __SD_Sectors (mkDev TRUE SDCT_SD1 0) (mkSpi (reply 0) [] []) = None.
Proof. vm_compute. reflexivity. Qed.

(** The wait for the descriptor returns exactly when the card sends a
    byte other than 0xFF; on a line that reads 0xFF for ever no bound on
    the iterations lets it return. *)
Lemma descriptor_wait_returns (fuel : nat) (w : spi) :
  Exists (fun b => u8 b <> 0xFF) (rx w) ->
  (length (rx w) < fuel)%nat ->
  exists w',
    while_do fuel (b <- SPI_RW 0xFF ;; ret (b =? 0xFF)) (ret tt) w
    = Some (tt, w').
Proof.
  revert w. induction fuel as [| fuel IH]; intros w Hex Hlen; [lia |].
  cbn [while_do]. unfold bind at 1. unfold bind at 1. cbn [SPI_RW ret].
  destruct (Z.eqb_spec (next_byte (rx w)) 0xFF) as [E | N].
  - unfold bind at 1. cbn [ret]. apply IH.
    + cbn [rw_state rx]. destruct (rx w) as [| b r]; inversion Hex; subst.
      * cbn [next_byte] in E. contradiction.
      * assumption.
    + cbn [rw_state rx]. destruct (rx w); cbn in *; [inversion Hex | lia].
  - eexists. reflexivity.
Qed.

Lemma descriptor_wait_silent (fuel : nat) (w : spi) :
  Forall (fun b => u8 b = 0xFF) (rx w) ->
  while_do fuel (b <- SPI_RW 0xFF ;; ret (b =? 0xFF)) (ret tt) w = None.
Proof.
  revert w. induction fuel as [| fuel IH]; intros w Hall; [reflexivity |].
  cbn [while_do]. unfold bind at 1. unfold bind at 1. cbn [SPI_RW ret].
  assert (E : next_byte (rx w) = 0xFF).
  { destruct (rx w) as [| b r]; [reflexivity |].
    inversion Hall; subst. assumption. }
  rewrite E. cbn [Z.eqb Pos.eqb]. unfold bind at 1. cbn [ret].
  apply IH. cbn [rw_state rx].
  destruct (rx w) as [| b r]; [constructor |].
  inversion Hall; subst. assumption.
Qed.

(** * Further properties of the driver *)

(** ** Results and logs of computations *)

Lemma sat_ret {A} (P : event -> Prop) (Q : A -> Prop) (a : A) :
  Q a -> sat P Q (ret a).
Proof.
  intros Hq w a' w' E. injection E as <- <-. split; [exact Hq |].
  exists []. split; [symmetry; apply app_nil_r | constructor].
Qed.

Lemma sat_bind {A B} (P : event -> Prop) (R : A -> Prop) (Q : B -> Prop)
  (m : io A) (k : A -> io B) :
  sat P R m -> (forall a, R a -> sat P Q (k a)) -> sat P Q (bind m k).
Proof.
  intros Hm Hk w b w' E. unfold bind in E.
  destruct (m w) as [[a w1] |] eqn:Em; [| discriminate].
  destruct (Hm _ _ _ Em) as (Ha & e1 & T1 & F1).
  destruct (Hk a Ha _ _ _ E) as (Hb & e2 & T2 & F2).
  split; [exact Hb |]. exists (e1 ++ e2). split.
  - rewrite T2, T1, app_assoc. reflexivity.
  - apply Forall_app. split; assumption.
Qed.

Lemma sat_bind_any {A B} (P : event -> Prop) (Q : B -> Prop)
  (m : io A) (k : A -> io B) :
  sat P any m -> (forall a, sat P Q (k a)) -> sat P Q (bind m k).
Proof. intros Hm Hk. apply (sat_bind P any Q); auto. Qed.

Lemma sat_mono {A} (P P' : event -> Prop) (Q Q' : A -> Prop) (m : io A) :
  sat P Q m -> (forall e, P e -> P' e) -> (forall a, Q a -> Q' a) ->
  sat P' Q' m.
Proof.
  intros H HP HQ w a w' E. destruct (H _ _ _ E) as (Ha & evs & T & F).
  split; [auto |]. exists evs. split; [exact T |].
  eapply Forall_impl; [| exact F]. exact HP.
Qed.

Lemma sat_call (P : event -> Prop) (e : event) :
  P e -> sat P any (call e).
Proof.
  intros He w a w' E. injection E as <- <-. split; [exact I |].
  exists [e]. split; [reflexivity | repeat constructor; exact He].
Qed.

Lemma next_byte_is_byte (l : list Z) : is_byte (next_byte l).
Proof.
  unfold is_byte. destruct l as [| b l]; cbn [next_byte]; [lia |].
  unfold u8. dlia.
Qed.

Lemma sat_SPI_RW (P : event -> Prop) (d : Z) :
  (forall i, P (EvRW d i)) -> sat P is_byte (SPI_RW d).
Proof.
  intros He w a w' E. injection E as <- <-.
  split; [apply next_byte_is_byte |].
  exists [EvRW d (next_byte (rx w))]. split; [reflexivity |].
  repeat constructor. apply He.
Qed.

Lemma sat_SPI_Timer_Status (P : event -> Prop) :
  (forall b, P (EvTimerStatus b)) -> sat P any SPI_Timer_Status.
Proof.
  intros He w a w' E. injection E as <- <-. split; [exact I |].
  exists [EvTimerStatus (hd false (tmr w))]. split; [reflexivity |].
  repeat constructor. apply He.
Qed.

Lemma sat_do_while {A} (P : event -> Prop) (R : A -> Prop)
  (body : io A) (cond : A -> io bool) (fuel : nat) :
  sat P R body -> (forall x, sat P any (cond x)) ->
  sat P R (do_while fuel body cond).
Proof.
  intros Hb Hc. induction fuel as [| fuel IH]; [intros w a w' E; discriminate |].
  cbn [do_while]. apply (sat_bind P R R); [exact Hb | intros x Hx].
  apply sat_bind_any; [apply Hc | intros c].
  destruct c; [exact IH | apply sat_ret; exact Hx].
Qed.

Lemma sat_while_do (P : event -> Prop) (cond : io bool) (body : io unit)
  (fuel : nat) :
  sat P any cond -> sat P any body -> sat P any (while_do fuel cond body).
Proof.
  intros Hc Hb. induction fuel as [| fuel IH]; [intros w a w' E; discriminate |].
  cbn [while_do]. apply sat_bind_any; [exact Hc | intros c].
  destruct c; [| apply sat_ret; exact I].
  apply sat_bind_any; [exact Hb | intros _; exact IH].
Qed.

Lemma sat_timed {A} (P : event -> Prop) (Q : A -> Prop) (loop : nat -> io A) :
  (forall fuel, sat P Q (loop fuel)) -> sat P Q (timed loop).
Proof. intros H w a w' E. unfold timed in E. apply (H _ _ _ _ E). Qed.

Lemma sat_for_idx (P : event -> Prop) (from : Z) (n : nat)
  (body : Z -> io unit) :
  (forall i, sat P any (body i)) -> sat P any (for_idx from n body).
Proof.
  intros Hb. revert from. induction n as [| n IH]; intros from; cbn [for_idx].
  - apply sat_ret. exact I.
  - apply sat_bind_any; [apply Hb | intros _; apply IH].
Qed.

Lemma sat_any {A} (P : event -> Prop) (Q : A -> Prop) (m : io A) :
  sat P Q m -> sat P any m.
Proof. intros H. apply (sat_mono P P Q any m H); auto. intros; exact I. Qed.

Lemma sat_read_bytes (P : event -> Prop) (n : nat) :
  (forall i, P (EvRW 0xFF i)) -> sat P (Forall is_byte) (read_bytes n).
Proof.
  intros He. induction n as [| n IH]; cbn [read_bytes].
  - apply sat_ret. constructor.
  - apply (sat_bind P is_byte); [apply sat_SPI_RW; exact He | intros b Hb].
    apply (sat_bind P (Forall is_byte)); [exact IH | intros l Hl].
    apply sat_ret. constructor; assumption.
Qed.

Lemma sat_poll (P : event -> Prop) (again : Z -> bool) :
  (forall e, bus e -> P e) -> sat P is_byte (poll again).
Proof.
  intros HP. unfold poll. apply sat_timed. intros fuel.
  apply sat_do_while.
  - apply sat_SPI_RW. intros i. apply HP. exact I.
  - intros x. destruct (again x).
    + apply sat_SPI_Timer_Status. intros b. apply HP. exact I.
    + apply sat_ret. exact I.
Qed.

Lemma sat_send_cmd_body (P : event -> Prop) (cmd arg : Z) :
  (forall e, bus e -> P e) -> sat P is_byte (send_cmd_body cmd arg).
Proof.
  intros HP. unfold send_cmd_body, __SD_Deassert, __SD_Assert, SPI_CS_High,
    SPI_CS_Low, SPI_Timer_On, SPI_Timer_Off.
  repeat (apply sat_bind_any;
          [first [apply sat_call; apply HP; exact I
                 | eapply sat_any; apply sat_SPI_RW; intros i; apply HP; exact I]
          | intros _]).
  apply (sat_bind P is_byte); [apply sat_poll; exact HP | intros res Hres].
  apply sat_bind_any; [apply sat_call; apply HP; exact I | intros _].
  apply sat_ret. exact Hres.
Qed.

Lemma sat_send_cmd (P : event -> Prop) (cmd arg : Z) :
  (forall e, bus e -> P e) -> sat P is_byte (__SD_Send_Cmd cmd arg).
Proof.
  intros HP. destruct (Z.eq_dec (Z.land cmd 0x80) 0) as [E | N].
  - rewrite send_cmd_plain by assumption. apply sat_send_cmd_body. exact HP.
  - rewrite send_cmd_app by assumption.
    apply (sat_bind P is_byte); [apply sat_send_cmd_body; exact HP |].
    intros res Hres. destruct (res >? 1).
    + apply sat_ret. exact Hres.
    + apply sat_send_cmd_body. exact HP.
Qed.

Lemma sat_skip_loop (P : event -> Prop) (fuel : nat) (n : Z) :
  (forall e, bus e -> P e) -> sat P any (skip_loop fuel n).
Proof.
  intros HP. revert n. induction fuel as [| fuel IH]; intros n;
    [intros w a w' E; discriminate |].
  cbn [skip_loop]. apply sat_bind_any.
  - eapply sat_any. apply sat_SPI_RW. intros i. apply HP. exact I.
  - intros _. destruct (negb (u16 (n - 1) =? 0)); [apply IH |].
    apply sat_ret. exact I.
Qed.

Lemma sat_recv_loop (P : event -> Prop) (fuel : nat) (buf : list Z)
  (pos : nat) (cnt : Z) :
  (forall e, bus e -> P e) ->
  sat P (fun buf' => length buf' = length buf) (recv_loop fuel buf pos cnt).
Proof.
  intros HP. revert buf pos cnt. induction fuel as [| fuel IH];
    intros buf pos cnt; [intros w a w' E; discriminate |].
  cbn [recv_loop]. apply sat_bind_any.
  - eapply sat_any. apply sat_SPI_RW. intros i. apply HP. exact I.
  - intros b. destruct (negb (u16 (cnt - 1) =? 0)).
    + eapply sat_mono; [apply IH | auto |].
      intros buf' E. cbv beta in E. rewrite E. apply store_length.
    + apply sat_ret. apply store_length.
Qed.

Lemma sat_read_data (P : event -> Prop) (dat : list Z) (ofs cnt : Z) :
  (forall e, bus e -> P e) ->
  sat P (fun dat' => length dat' = length dat) (read_data dat ofs cnt).
Proof.
  intros HP. unfold read_data. apply sat_bind_any.
  - destruct (negb (ofs =? 0)); [apply sat_skip_loop; exact HP |].
    apply sat_ret. exact I.
  - intros _.
    apply (sat_bind P (fun dat' => length dat' = length dat));
      [apply sat_recv_loop; exact HP | intros dat' Hd].
    apply sat_bind_any; [apply sat_skip_loop; exact HP | intros _].
    apply sat_ret. exact Hd.
Qed.

Lemma sat_write_wait (P : event -> Prop) :
  (forall e, bus e -> P e) ->
  sat P (fun res => res = SD_BUSY \/ res = SD_OK) write_wait.
Proof.
  intros HP. unfold write_wait, SPI_Timer_On, SPI_Timer_Off.
  apply sat_bind_any; [apply sat_call; apply HP; exact I | intros _].
  apply sat_bind_any; [eapply sat_any; apply sat_poll; exact HP | intros line].
  apply sat_bind_any; [apply sat_call; apply HP; exact I | intros _].
  destruct (line =? 0); apply sat_ret; auto.
Qed.

Lemma sat_write_block (P : event -> Prop) (dev : SD_DEV) (dat : list Z)
  (token : Z) :
  (forall e, bus e -> P e) ->
  sat P (fun res => res = SD_REJECT \/ res = SD_BUSY \/ res = SD_OK)
      (__SD_Write_Block dev dat token).
Proof.
  intros HP. unfold __SD_Write_Block.
  assert (Hrw : forall d, sat P any (SPI_RW d)).
  { intros d. eapply sat_any. apply sat_SPI_RW. intros i. apply HP. exact I. }
  assert (Hww : sat P (fun res => res = SD_REJECT \/ res = SD_BUSY \/ res = SD_OK)
                    write_wait).
  { eapply sat_mono; [apply (sat_write_wait P HP) | auto | tauto]. }
  apply sat_bind_any; [apply Hrw | intros _].
  destruct (negb (token =? 0xFD)); [| exact Hww].
  apply sat_bind_any.
  { apply sat_for_idx. intros i.
    apply sat_bind_any; [apply Hrw | intros _; apply sat_ret; exact I]. }
  intros _. apply sat_bind_any; [apply Hrw | intros _].
  apply sat_bind_any; [apply Hrw | intros _].
  apply sat_bind_any; [apply Hrw | intros resp].
  destruct (negb (Z.land resp 0x1F =? 0x05)); [| exact Hww].
  apply sat_ret. auto.
Qed.

(** ** Sector write: results and what goes on the wire *)

(** X1.  A sector write returns on every transport, with one of
    SD_PARERR, SD_ERROR, SD_REJECT, SD_BUSY and SD_OK; everything it logs
    is a byte exchange, a chip select or a timer call: it never releases
    the card, initializes the transport or changes the clock. *)
Theorem sd_write_results (dev : SD_DEV) (dat : list Z) (sector : Z)
  (w : spi) :
  exists res w' evs,
    SD_Write dev dat sector w = Some (res, w') /\
    (res = SD_PARERR \/ res = SD_ERROR \/ res = SD_REJECT \/
     res = SD_BUSY \/ res = SD_OK) /\
    trace w' = trace w ++ evs /\ Forall bus evs.
Proof.
  destruct (steady_SD_Write dev dat sector w) as (res & w' & E & _).
  assert (S : sat bus (fun res => res = SD_PARERR \/ res = SD_ERROR \/
                                  res = SD_REJECT \/ res = SD_BUSY \/
                                  res = SD_OK)
                (SD_Write dev dat sector)).
  { unfold SD_Write. destruct (sector >? last_sector dev).
    - apply sat_ret. auto.
    - apply sat_bind_any; [eapply sat_any; apply sat_send_cmd; auto |].
      intros r. destruct (r =? 0); [| apply sat_ret; auto].
      eapply sat_mono;
        [apply (sat_write_block bus); auto | auto | cbv beta; tauto]. }
  destruct (S _ _ _ E) as (Hres & evs & T & F).
  exists res, w', evs. auto.
Qed.

(** ** Sector read: results and the destination *)

(** X2.  A sector read returns on every transport, with one of
    SD_PARERR, SD_ERROR and SD_OK.  On SD_PARERR the transport and the
    destination are untouched; on SD_ERROR the destination is untouched;
    on SD_ERROR and on SD_OK the last call is the release of the card and
    everything logged before it is a byte exchange, a chip select or a
    timer call. *)
Theorem sd_read_results (dev : SD_DEV) (dat : list Z) (sector ofs cnt : Z)
  (w : spi) :
  exists res dat' w',
    SD_Read dev dat sector ofs cnt w = Some ((res, dat'), w') /\
    ((res = SD_PARERR /\ dat' = dat /\ w' = w) \/
     ((res = SD_ERROR /\ dat' = dat \/ res = SD_OK) /\
      exists evs,
        trace w' = trace w ++ evs ++ [EvRelease] /\ Forall bus evs)).
Proof.
  destruct (steady_SD_Read dev dat sector ofs cnt w) as ([res dat'] & w' & E & _).
  exists res, dat', w'. split; [exact E |].
  revert E. unfold SD_Read.
  destruct ((sector >? last_sector dev) || (cnt =? 0)).
  { intros E. inversion E; subst. left. auto. }
  intros E. right.
  set (Q := fun out : SDRESULTS * list Z =>
              fst out = SD_ERROR /\ snd out = dat \/
              fst out = SD_OK /\ length (snd out) = length dat).
  match type of E with
  | bind ?m (fun r => bind (@?k r) _) w = _ =>
      assert (S : sat bus Q (bind m k))
  end.
  { apply sat_bind_any; [eapply sat_any; apply sat_send_cmd; auto |].
    intros r. destruct (r =? 0); [| apply sat_ret; left; auto].
    unfold wait_token, SPI_Timer_On, SPI_Timer_Off.
    apply sat_bind_any.
    { apply sat_bind_any; [apply sat_call; exact I | intros _].
      apply sat_bind_any; [eapply sat_any; apply sat_poll; auto | intros t].
      apply sat_bind_any; [apply sat_call; exact I | intros _].
      apply sat_ret. exact I. }
    intros tkn. destruct (tkn =? 0xFE); [| apply sat_ret; left; auto].
    apply (sat_bind bus (fun dat' => length dat' = length dat));
      [apply sat_read_data; auto | intros d Hd].
    apply sat_ret. right. auto. }
  unfold bind in E, S.
  match type of E with
  | match ?x with _ => _ end = _ => destruct x as [[r w1] |] eqn:E1
  end; [| discriminate].
  match type of E with
  | match ?x with _ => _ end = _ => destruct x as [[out w2] |] eqn:E2
  end; [| discriminate].
  specialize (S w out w2). cbv beta in S. rewrite E1 in S.
  destruct (S E2) as (Hq & evs & T & F).
  destruct out as [res0 d0]. unfold Q in Hq. cbn [fst snd] in Hq.
  cbv [SPI_Release call ret] in E. inversion E; subst.
  split.
  - tauto.
  - exists evs. split; [| exact F].
    cbn [emit trace]. rewrite T, <- app_assoc. reflexivity.
Qed.

Lemma clocked_app_bytes (n : nat) (l r : list Z) :
  Forall is_byte l -> (n <= length l)%nat ->
  clocked n (l ++ r) = firstn n l.
Proof.
  revert l. induction n as [| n IH]; intros l Hl Hn; [reflexivity |].
  destruct l as [| b l]; [cbn in Hn; lia |].
  inversion Hl as [| ? ? Hb Hl']; subst.
  cbn [app clocked next_byte tl firstn].
  rewrite IH by (assumption || (cbn in Hn; lia)).
  f_equal. unfold is_byte in Hb. apply Z.mod_small. exact Hb.
Qed.




Lemma sent_burst (outs : list Z) (w : spi) :
  sent (trace (burst outs w)) = sent (trace w) ++ outs.
Proof.
  unfold burst. cbn [trace]. rewrite sent_app, sent_exchanges.
  - reflexivity.
  - rewrite clocked_length. reflexivity.
Qed.

(** X4.  A write whose command was accepted puts on the wire the token
    0xFE, the 512 bytes of the caller's block in order, two 0xFF bytes in
    place of the CRC and one 0xFF that fetches the data response; after a
    reject nothing more is sent, otherwise only the 0xFF bytes of the busy
    poll, at least one. *)
Theorem sd_write_wire (dev : SD_DEV) (dat : list Z) (sector : Z)
  (w w1 : spi) :
  Forall is_byte dat -> length dat = 512%nat ->
  sector <= last_sector dev ->
  __SD_Send_Cmd CMD24 (u32 (sector * SD_BLK_SIZE)) w = Some (0, w1) ->
  exists res w' n,
    SD_Write dev dat sector w = Some (res, w') /\
    sent (trace w') =
      sent (trace w1) ++ 0xFE :: dat ++ [0xFF; 0xFF; 0xFF] ++ repeat 0xFF n /\
    (res = SD_REJECT /\ n = 0%nat \/
     (res = SD_BUSY \/ res = SD_OK) /\ (1 <= n)%nat).
Proof.
  intros Hby Hlen Hsec E1. unfold SD_Write.
  destruct (Z.gtb_spec sector (last_sector dev)); [lia |].
  rewrite (bind_Some _ _ _ _ _ E1). cbn [Z.eqb].
  rewrite write_block_to_response. cbv zeta.
  rewrite block_bytes_block by assumption.
  set (W := burst (0xFE :: dat ++ [0xFF; 0xFF]) w1).
  assert (HW : sent (trace (rw_state 0xFF W))
               = sent (trace w1) ++ 0xFE :: dat ++ [0xFF; 0xFF; 0xFF]).
  { change (rw_state 0xFF W) with (burst [0xFF] W).
    unfold W. rewrite !sent_burst, <- !app_assoc. cbn [app].
    rewrite <- app_assoc. reflexivity. }
  match goal with |- context [negb ?c] => destruct (negb c) end.
  - exists SD_REJECT, (rw_state 0xFF W), 0%nat. split; [reflexivity |].
    split; [| left; auto]. rewrite HW. cbn [repeat app]. reflexivity.
  - destruct (write_wait_runs (rw_state 0xFF W)) as (xs & line & w4 & P & E).
    exists (if line =? 0 then SD_BUSY else SD_OK), (emit EvTimerOff w4),
      (S (length xs)).
    split; [exact E |]. split.
    + cbn [emit trace]. rewrite sent_app, (polls_trace _ _ _ _ _ P).
      cbn [emit trace]. rewrite !sent_app, HW, sent_wait_events, sent_poll_end.
      cbn [sent flat_map app]. rewrite app_nil_r, <- repeat_cons.
      rewrite <- !app_assoc. cbn [app]. rewrite <- !app_assoc. reflexivity.
    + right. split; [destruct (line =? 0); auto | lia].
Qed.

Lemma sd_write_wire_witness :
  exists w' n,
    SD_Write (mkDev TRUE SDCT_SD1 9) (repeat 0xA5 512) 1
      (mkSpi (reply 0 ++ repeat 0xFF 515 ++ [0xE5; 0x00; 0x01]) [true] [])
    = Some (SD_OK, w') /\
    sent (trace w') =
      [0xFF; 0xFF; 0x58; 0; 0; 2; 0; 0x01; 0xFF] ++
      0xFE :: repeat 0xA5 512 ++ [0xFF; 0xFF; 0xFF] ++ repeat 0xFF n.
Proof.
  set (dev := mkDev TRUE SDCT_SD1 9). set (dat := repeat 0xA5 512).
  set (w := mkSpi (reply 0 ++ repeat 0xFF 515 ++ [0xE5; 0x00; 0x01]) [true] []).
  assert (Hby : Forall is_byte dat).
  { apply Forall_forall. intros x Hx. apply repeat_spec in Hx. subst x.
    unfold is_byte. lia. }
  assert (Hlen : length dat = 512%nat) by apply repeat_length.
  assert (Hsec : 1 <= last_sector dev) by (cbn; lia).
  eassert (E1 : __SD_Send_Cmd CMD24 (u32 (1 * SD_BLK_SIZE)) w = Some (0, _))
    by (vm_compute; reflexivity).
  destruct (sd_write_wire dev dat 1 w _ Hby Hlen Hsec E1)
    as (res & w' & n & E & S & R).
  assert (Hres : res = SD_OK).
  { pose proof E as E'. vm_compute in E'. injection E' as H _.
    symmetry. exact H. }
  subst res. exists w', n. split; [exact E | exact S].
Defined.

(** ** The address of a sector *)

Lemma address_frame (cmd sector : Z) :
  0 <= sector < 8388608 -> cmd <> 0x40 -> cmd <> 0x48 ->
  frame cmd (u32 (sector * SD_BLK_SIZE))
  = [cmd; sector / 32768; (sector / 128) mod 256; (sector mod 128) * 2; 0;
     0x01].
Proof.
  intros Hs H0 H8. unfold frame, u32, SD_BLK_SIZE.
  destruct (Z.eqb_spec cmd 0x40); [contradiction |].
  destruct (Z.eqb_spec cmd 0x48); [contradiction |].
  rewrite (Z.mod_small (sector * 512)) by lia.
  replace ((sector * 512 / 16777216) mod 256) with (sector / 32768) by dlia.
  replace ((sector * 512 / 65536) mod 256) with ((sector / 128) mod 256)
    by dlia.
  replace ((sector * 512 / 256) mod 256) with (sector mod 128 * 2) by dlia.
  replace ((sector * 512) mod 256) with 0 by dlia.
  reflexivity.
Qed.

Lemma send_plain_sent (cmd arg : Z) (w : spi) :
  Z.land cmd 0x80 = 0 ->
  exists r w1 n,
    __SD_Send_Cmd cmd arg w = Some (r, w1) /\
    sent (trace w1) =
      sent (trace w) ++ [0xFF; 0xFF] ++ frame cmd arg ++ repeat 0xFF (S n).
Proof.
  intros Hc. rewrite send_cmd_plain by assumption.
  destruct (send_cmd_body_runs cmd arg w) as (r & w1 & E & X).
  destruct (exchanged_sent _ _ _ _ _ X) as (n & S).
  exists r, w1, n. split; assumption.
Qed.

(** X5.  A sector within a 16-bit [last_sector] is sent as the byte
    address sector * 512, four bytes most significant first, whatever
    the card type of the session, the block-addressing flag included; the
    address stays below 2^25 and its last byte is 0.  A response other
    than 0 to the command ends the read or the write with SD_ERROR and
    nothing more is sent. *)
Theorem sector_byte_address (dev : SD_DEV) (dat : list Z)
  (sector ofs cnt : Z) (w : spi) :
  0 <= sector <= last_sector dev -> last_sector dev < 65536 -> cnt <> 0 ->
  let addr :=
    [sector / 32768; (sector / 128) mod 256; (sector mod 128) * 2; 0] in
  (exists r w1 n,
     __SD_Send_Cmd CMD17 (u32 (sector * SD_BLK_SIZE)) w = Some (r, w1) /\
     sent (trace w1) =
       sent (trace w) ++ [0xFF; 0xFF; 0x51] ++ addr ++ [0x01]
       ++ repeat 0xFF (S n) /\
     (r <> 0 ->
      SD_Read dev dat sector ofs cnt w
      = Some ((SD_ERROR, dat), emit EvRelease w1))) /\
  (exists r w1 n,
     __SD_Send_Cmd CMD24 (u32 (sector * SD_BLK_SIZE)) w = Some (r, w1) /\
     sent (trace w1) =
       sent (trace w) ++ [0xFF; 0xFF; 0x58] ++ addr ++ [0x01]
       ++ repeat 0xFF (S n) /\
     (r <> 0 -> SD_Write dev dat sector w = Some (SD_ERROR, w1))).
Proof.
  intros Hs Hl Hc addr. split.
  - destruct (send_plain_sent CMD17 (u32 (sector * SD_BLK_SIZE)) w eq_refl)
      as (r & w1 & n & E & S).
    exists r, w1, n. split; [exact E |]. split.
    + rewrite S, address_frame by (lia || (vm_compute; discriminate)).
      reflexivity.
    + intros Hr. unfold SD_Read.
      destruct (Z.gtb_spec sector (last_sector dev)); [lia |].
      destruct (Z.eqb_spec cnt 0); [contradiction |]. cbn [orb].
      rewrite (bind_Some _ _ _ _ _ E).
      destruct (Z.eqb_spec r 0); [contradiction | reflexivity].
  - destruct (send_plain_sent CMD24 (u32 (sector * SD_BLK_SIZE)) w eq_refl)
      as (r & w1 & n & E & S).
    exists r, w1, n. split; [exact E |]. split.
    + rewrite S, address_frame by (lia || (vm_compute; discriminate)).
      reflexivity.
    + intros Hr. unfold SD_Write.
      destruct (Z.gtb_spec sector (last_sector dev)); [lia |].
      rewrite (bind_Some _ _ _ _ _ E).
      destruct (Z.eqb_spec r 0); [contradiction | reflexivity].
Qed.

Lemma sector_byte_address_witness :
  exists w1 n,
    SD_Write (mkDev TRUE (Z.lor SDCT_SD2 SDCT_BLOCK) 0xFFFF) [] 0xFFFF idle
    = Some (SD_ERROR, w1) /\
    sent (trace w1) =
      [0xFF; 0xFF; 0x58; 0x01; 0xFF; 0xFE; 0x00; 0x01] ++ repeat 0xFF (S n).
Proof.
  set (dev := mkDev TRUE (Z.lor SDCT_SD2 SDCT_BLOCK) 0xFFFF).
  assert (Hs : 0 <= 0xFFFF <= last_sector dev) by (cbn; lia).
  assert (Hl : last_sector dev < 65536) by (cbn; lia).
  assert (Hc : 1 <> 0) by lia.
  destruct (sector_byte_address dev [] 0xFFFF 0 1 idle Hs Hl Hc)
    as [_ (r & w1 & n & E & S & Herr)].
  assert (Hr : r <> 0).
  { pose proof E as E'. vm_compute in E'. injection E' as <- _. lia. }
  exists w1, n. split; [exact (Herr Hr) | exact S].
Defined.

(** ** The capacity of a card *)

Lemma power_of_two_small (e : Z) :
  0 <= e < 32 -> __SD_Power_Of_Two e = 2 ^ e.
Proof.
  intros He. unfold __SD_Power_Of_Two, u32. rewrite Z.shiftl_1_l.
  apply Z.mod_small. split; [apply Z.pow_nonneg; lia |].
  change 4294967296 with (2 ^ 32). apply Z.pow_lt_mono_r; lia.
Qed.

Lemma v1_field_ranges (csd : list Z) :
  Forall is_byte csd ->
  0 <= C_SIZE_v1_field csd <= 4095 /\
  0 <= C_SIZE_MULT_field csd <= 7 /\
  0 <= READ_BL_LEN_field csd <= 15.
Proof.
  intros Hcsd.
  pose proof (nth_is_byte csd 7 Hcsd) as H7.
  pose proof (nth_is_byte csd 8 Hcsd) as H8.
  pose proof (nth_is_byte csd 10 Hcsd) as H10.
  unfold C_SIZE_v1_field, C_SIZE_MULT_field, READ_BL_LEN_field, is_byte in *.
  repeat split; dlia.
Qed.

(** X6.  For a version 1 session the sector count is the capacity
    formula (C_SIZE + 1) * 2^(C_SIZE_MULT + 2) * 2^READ_BL_LEN taken modulo
    2^32 and divided by 512; for a READ_BL_LEN up to 10 the product fits
    in 32 bits and the count is exact. *)
Theorem sd1_capacity (ct : Z) (csd : list Z) :
  Z.land ct SDCT_SD1 <> 0 ->
  Forall is_byte csd ->
  let product :=
    (C_SIZE_v1_field csd + 1) * 2 ^ (C_SIZE_MULT_field csd + 2)
    * 2 ^ READ_BL_LEN_field csd in
  csd_sectors ct csd = (product mod 4294967296) / 512 /\
  (READ_BL_LEN_field csd <= 10 -> csd_sectors ct csd = product / 512).
Proof.
  intros Hct Hcsd product.
  destruct (v1_field_ranges csd Hcsd) as (HC & HM & HB).
  assert (E : csd_sectors ct csd = (product mod 4294967296) / 512).
  { unfold csd_sectors. rewrite csd_fields_sd1 by assumption.
    unfold u8. rewrite (Z.mod_small (C_SIZE_MULT_field csd + 2)) by lia.
    rewrite !power_of_two_small by lia.
    assert (HpM : 0 < 2 ^ (C_SIZE_MULT_field csd + 2) <= 2 ^ 9).
    { split; [apply Z.pow_pos_nonneg; lia |].
      apply Z.pow_le_mono_r; lia. }
    change (2 ^ 9) with 512 in HpM.
    unfold u32, SD_BLK_SIZE.
    rewrite (Z.mod_small (C_SIZE_v1_field csd + 1)) by lia.
    rewrite (Z.mod_small ((C_SIZE_v1_field csd + 1)
                          * 2 ^ (C_SIZE_MULT_field csd + 2))) by nia.
    reflexivity. }
  split; [exact E |].
  intros Hb. rewrite E. f_equal. apply Z.mod_small.
  assert (HpM : 0 < 2 ^ (C_SIZE_MULT_field csd + 2) <= 2 ^ 9).
  { split; [apply Z.pow_pos_nonneg; lia | apply Z.pow_le_mono_r; lia]. }
  assert (HpB : 0 < 2 ^ READ_BL_LEN_field csd <= 2 ^ 10).
  { split; [apply Z.pow_pos_nonneg; lia | apply Z.pow_le_mono_r; lia]. }
  change (2 ^ 9) with 512 in HpM. change (2 ^ 10) with 1024 in HpB.
  unfold product.
  assert (0 <= (C_SIZE_v1_field csd + 1) * 2 ^ (C_SIZE_MULT_field csd + 2)
          <= 4096 * 512) by nia.
  nia.
Qed.

Lemma sd1_capacity_witness :
  csd_sectors SDCT_SD1 csd_v1_65600 = 65600.
Proof.
  assert (Hct : Z.land SDCT_SD1 SDCT_SD1 <> 0) by (vm_compute; discriminate).
  assert (Hcsd : Forall is_byte csd_v1_65600)
    by (repeat constructor; unfold is_byte; lia).
  destruct (sd1_capacity SDCT_SD1 csd_v1_65600 Hct Hcsd) as [_ H].
  rewrite H; [reflexivity | vm_compute; discriminate].
Defined.

(** X7.  Outside version 1 the descriptor hardly counts: for a version 2
    session READ_BL_LEN stays 0 and C_SIZE is cut to 16 bits, so the
    sector count is (C_SIZE mod 2^16 + 1) / 128, at most 512; for a
    session that is neither version 1 nor version 2, an MMC card, no
    field is decoded and the sector count is 0 for every register. *)
Theorem descriptor_outside_v1 (ct : Z) (csd : list Z) :
  Z.land ct SDCT_SD1 = 0 ->
  Forall is_byte csd ->
  (Z.land ct SDCT_SD2 <> 0 ->
   csd_sectors ct csd = (C_SIZE_v2_field csd mod 65536 + 1) / 128 /\
   0 <= csd_sectors ct csd <= 512) /\
  (Z.land ct SDCT_SD2 = 0 -> csd_sectors ct csd = 0).
Proof.
  intros H1 Hcsd. split.
  - intros H2. unfold csd_sectors. rewrite csd_fields_sd2 by assumption.
    change (__SD_Power_Of_Two (u8 (0 + 2))) with 4.
    change (__SD_Power_Of_Two 0) with 1.
    unfold u32, SD_BLK_SIZE.
    set (c := C_SIZE_v2_field csd mod 65536).
    assert (Hc : 0 <= c < 65536) by (unfold c; dlia).
    clearbody c.
    rewrite (Z.mod_small (c + 1)) by lia.
    rewrite (Z.mod_small ((c + 1) * 4)) by lia.
    rewrite Z.mul_1_r, (Z.mod_small ((c + 1) * 4)) by lia.
    split; dlia.
  - intros H2. unfold csd_sectors, csd_fields. rewrite H1, H2. reflexivity.
Qed.

Lemma descriptor_outside_v1_witness :
  csd_sectors SDCT_SD2 csd_v2_64GB = 440 /\
  csd_sectors SDCT_MMC csd_v1_65600 = 0.
Proof.
  assert (Hb2 : Forall is_byte csd_v2_64GB)
    by (repeat constructor; unfold is_byte; lia).
  assert (Hb1 : Forall is_byte csd_v1_65600)
    by (repeat constructor; unfold is_byte; lia).
  destruct (descriptor_outside_v1 SDCT_SD2 csd_v2_64GB eq_refl Hb2) as [A _].
  destruct (descriptor_outside_v1 SDCT_MMC csd_v1_65600 eq_refl Hb1) as [_ B].
  split.
  - destruct A as [A _]; [vm_compute; discriminate |]. rewrite A. reflexivity.
  - apply B. reflexivity.
Defined.

(** ** The response to a command *)

Lemma exchanged_end (cmd arg : Z) (w w' : spi) (res : Z) :
  exchanged cmd arg w res w' ->
  is_byte res /\
  exists pre,
    trace w' =
      pre ++ EvRW 0xFF res
      :: (if Z.land res 0x80 =? 0 then [] else [EvTimerStatus false])
      ++ [EvTimerOff].
Proof.
  intros X. split.
  - destruct X as (xs & w4 & P & _).
    destruct (polls_rx _ _ _ _ _ P) as [_ Hb].
    assert (Hin : In res (clocked (S (length xs)) (rx (emit (EvTimerOn 5)
              (burst (0xFF :: frame cmd arg)
                 (emit EvCSLow (burst [0xFF] (emit EvCSHigh w)))))))).
    { rewrite <- Hb. apply in_or_app. right. left. reflexivity. }
    revert Hin. generalize (S (length xs)).
    generalize (rx (emit (EvTimerOn 5)
              (burst (0xFF :: frame cmd arg)
                 (emit EvCSLow (burst [0xFF] (emit EvCSHigh w)))))).
    intros l n. revert l. induction n as [| n IH]; intros l Hin;
      [contradiction |].
    destruct Hin as [<- | Hin]; [apply next_byte_is_byte | apply (IH _ Hin)].
  - destruct (exchanged_trace _ _ _ _ _ X) as (xs & _ & T).
    exists (trace w ++
            [EvCSHigh; EvRW 0xFF (next_byte (rx w)); EvCSLow] ++
            exchanges (0xFF :: frame cmd arg) (clocked 7 (skipn 1 (rx w))) ++
            [EvTimerOn 5] ++ wait_events xs).
    rewrite T. unfold poll_end, r1_pending.
    destruct (Z.land res 0x80 =? 0); cbn [negb];
      rewrite <- !app_assoc; reflexivity.
Qed.

(** X8.  Every command returns a response, a byte.  The response is the
    last byte polled before the timer is stopped, and it has bit 7 set,
    the mark of a response still pending, only when the timer was seen
    expired right after it: a response 0xFF is a timeout. *)
Theorem response_pending_only_on_timeout (cmd arg : Z) (w : spi) :
  exists res w' pre,
    __SD_Send_Cmd cmd arg w = Some (res, w') /\
    0 <= res < 256 /\
    trace w' =
      pre ++ EvRW 0xFF res
      :: (if Z.land res 0x80 =? 0 then [] else [EvTimerStatus false])
      ++ [EvTimerOff].
Proof.
  destruct (Z.eq_dec (Z.land cmd 0x80) 0) as [Hc | Hc].
  - rewrite send_cmd_plain by assumption.
    destruct (send_cmd_body_runs cmd arg w) as (res & w' & E & X).
    destruct (exchanged_end _ _ _ _ _ X) as (Hb & pre & T).
    exists res, w', pre. auto.
  - rewrite send_cmd_app by assumption.
    destruct (send_cmd_body_runs CMD55 0 w) as (r55 & w55 & E & X).
    rewrite (bind_Some _ _ _ _ _ E).
    destruct (r55 >? 1).
    + destruct (exchanged_end _ _ _ _ _ X) as (Hb & pre & T).
      exists r55, w55, pre. auto.
    + destruct (send_cmd_body_runs (Z.land cmd 0x7F) arg w55)
        as (res & w' & E' & X').
      destruct (exchanged_end _ _ _ _ _ X') as (Hb & pre & T).
      exists res, w', pre. auto.
Qed.

(** ** Reading the descriptor *)

Lemma read_bytes_spec (n : nat) (w : spi) :
  read_bytes n w = Some (clocked n (rx w), burst (repeat 0xFF n) w).
Proof.
  revert w. induction n as [| n IH]; intros w.
  - cbn [read_bytes clocked repeat]. rewrite burst_nil. reflexivity.
  - cbn [read_bytes clocked repeat]. rewrite burst_cons.
    unfold bind at 1. cbn [SPI_RW]. unfold bind at 1.
    rewrite IH. reflexivity.
Qed.

Lemma descriptor_wait_spec (idle_bytes : list Z) (t : Z) (fuel : nat) :
  forall (w : spi) (after : list Z),
    rx w = idle_bytes ++ t :: after ->
    Forall (fun x => u8 x = 0xFF) idle_bytes -> u8 t <> 0xFF ->
    (length idle_bytes < fuel)%nat ->
    while_do fuel (b <- SPI_RW 0xFF ;; ret (b =? 0xFF)) (ret tt) w
    = Some (tt, burst (repeat 0xFF (S (length idle_bytes))) w).
Proof.
  revert fuel. induction idle_bytes as [| i l IH];
    intros fuel w after Hrx Hall Ht Hf;
    (destruct fuel as [| fuel]; [cbn in Hf; lia |]);
    cbn [while_do]; unfold bind at 1; unfold bind at 1; cbn [SPI_RW ret];
    rewrite Hrx; cbn [app next_byte].
  - destruct (Z.eqb_spec (u8 t) 0xFF); [contradiction |].
    cbn [length repeat]. reflexivity.
  - inversion Hall as [| ? ? Hi Hl]; subst. rewrite Hi. cbn [Z.eqb Pos.eqb].
    unfold bind at 1. cbn [ret length repeat]. rewrite burst_cons.
    apply (IH fuel (rw_state 0xFF w) after).
    + cbn [rw_state rx]. rewrite Hrx. reflexivity.
    + assumption.
    + assumption.
    + cbn in Hf. lia.
Qed.

(** X9.  Once CMD9 is accepted the descriptor read skips the 0xFF bytes
    of the card and takes the first other byte as the start of the data,
    whatever its value; the next 16 bytes are the register, the 2 after
    them are dropped, the card is released, and the result is the sector
    count decoded from these 16 bytes. *)
Theorem descriptor_read (dev : SD_DEV) (w w1 : spi)
  (idle_bytes csd rest : list Z) (t c1 c2 : Z) :
  __SD_Send_Cmd CMD9 0 w = Some (0, w1) ->
  rx w1 = idle_bytes ++ t :: csd ++ c1 :: c2 :: rest ->
  Forall (fun x => u8 x = 0xFF) idle_bytes -> u8 t <> 0xFF ->
  length csd = 16%nat -> Forall is_byte csd ->
  exists w',
    __SD_Sectors dev w = Some (csd_sectors (cardtype dev) csd, w') /\
    rx w' = rest /\
    sent (trace w') = sent (trace w1) ++ repeat 0xFF (length idle_bytes + 19) /\
    exists pre, trace w' = pre ++ [EvRelease].
Proof.
  intros E Hrx Hall Ht Hlen Hby.
  set (k := S (length idle_bytes)).
  set (W1 := burst (repeat 0xFF k) w1).
  assert (Hr1 : rx W1 = csd ++ c1 :: c2 :: rest).
  { unfold W1. rewrite burst_idle_rx, Hrx. unfold k.
    rewrite skipn_app, skipn_all2 by lia.
    replace (S (length idle_bytes) - length idle_bytes)%nat with 1%nat by lia.
    reflexivity. }
  set (W2 := burst (repeat 0xFF 16) W1).
  assert (Hr2 : rx W2 = c1 :: c2 :: rest).
  { unfold W2. rewrite burst_idle_rx, Hr1, skipn_app, <- Hlen.
    rewrite skipn_all, Nat.sub_diag. reflexivity. }
  exists (emit EvRelease (burst [0xFF; 0xFF] W2)).
  split; [| split; [| split]].
  - unfold __SD_Sectors. rewrite (bind_Some _ _ _ _ _ E). cbn [Z.eqb].
    assert (Ew : wait_not_ff w1 = Some (tt, W1)).
    { unfold wait_not_ff.
      apply (descriptor_wait_spec idle_bytes t _ w1 _ Hrx Hall Ht).
      rewrite Hrx, length_app. cbn [length]. lia. }
    rewrite (bind_Some _ _ _ _ _ Ew).
    rewrite (bind_Some _ _ _ _ _ (read_bytes_spec 16 W1)).
    fold W2. rewrite Hr1, <- Hlen, clocked_app_bytes, firstn_all by auto.
    rewrite !burst_cons, burst_nil. reflexivity.
  - cbn [emit rx burst length skipn]. rewrite Hr2. reflexivity.
  - cbn [emit trace]. rewrite sent_app. cbn [sent flat_map].
    unfold W2, W1. rewrite !sent_burst, app_nil_r, <- !app_assoc.
    f_equal. change [0xFF; 0xFF] with (repeat 0xFF 2).
    rewrite <- !repeat_app. f_equal. unfold k. lia.
  - eexists. reflexivity.
Qed.

Lemma descriptor_read_witness :
  exists w',
    __SD_Sectors (mkDev TRUE SDCT_SD1 0)
      (mkSpi (reply 0 ++ [0xFF; 0xFF; 0x01] ++ csd_v1_65600 ++ [0xAB; 0xCD; 0x77])
             [] [])
    = Some (65600, w') /\
    rx w' = [0x77].
Proof.
  set (dev := mkDev TRUE SDCT_SD1 0).
  set (w := mkSpi (reply 0 ++ [0xFF; 0xFF; 0x01] ++ csd_v1_65600
                   ++ [0xAB; 0xCD; 0x77]) [] []).
  eassert (E : __SD_Send_Cmd CMD9 0 w = Some (0, _))
    by (vm_compute; reflexivity).
  match type of E with
  | _ = Some (_, ?w1) =>
      assert (Hrx : rx w1 = [0xFF; 0xFF] ++ 0x01 :: csd_v1_65600
                            ++ 0xAB :: 0xCD :: [0x77])
        by (vm_compute; reflexivity)
  end.
  assert (Hall : Forall (fun x => u8 x = 0xFF) [0xFF; 0xFF])
    by (repeat constructor).
  assert (Ht : u8 0x01 <> 0xFF) by (vm_compute; discriminate).
  assert (Hlen : length csd_v1_65600 = 16%nat) by reflexivity.
  assert (Hby : Forall is_byte csd_v1_65600)
    by (repeat constructor; unfold is_byte; lia).
  destruct (descriptor_read dev w _ [0xFF; 0xFF] csd_v1_65600 [0x77] 0x01
              0xAB 0xCD E Hrx Hall Ht Hlen Hby) as (w' & Es & Er & _).
  exists w'. split; [exact Es | exact Er].
Defined.

(** ** Initialization: outcome and attempts *)

Ltac sat_any_step :=
  match goal with
  | |- sat _ any (bind _ _) => apply sat_bind_any; [| intros ?]
  | |- sat _ any (ret _) => apply sat_ret; exact I
  | |- sat _ any (call _) => apply sat_call; exact I
  | |- sat _ any (SPI_RW _) =>
      eapply sat_any; apply sat_SPI_RW; intros ?; exact I
  | |- sat _ any SPI_Timer_Status =>
      apply sat_SPI_Timer_Status; intros ?; exact I
  | |- sat _ any (__SD_Send_Cmd _ _) =>
      eapply sat_any; apply sat_send_cmd; intros []; simpl; tauto
  | |- sat _ any (timed _) => apply sat_timed; intros ?
  | |- sat _ any (while_do _ _ _) => apply sat_while_do
  | |- sat _ any (for_idx _ _ _) => apply sat_for_idx; intros ?
  | |- sat _ any (read_bytes _) =>
      eapply sat_any; apply sat_read_bytes; intros ?; exact I
  | |- sat _ any (if ?c then _ else _) => destruct c
  end.

Ltac sat_ct_step :=
  match goal with
  | |- sat _ _ (bind _ _) =>
      apply sat_bind_any; [solve [repeat sat_any_step] | intros ?]
  | |- sat _ _ (if ?c then _ else _) => destruct c
  | |- sat _ _ (ret _) =>
      apply sat_ret;
      repeat match goal with
             | |- context [if ?c then _ else _] => destruct c
             end;
      unfold card_type; auto 10
  end.

Lemma init_attempt_log (dev dev' : SD_DEV) (ct : Z) (w w' : spi) :
  init_attempt dev w = Some ((ct, dev'), w') ->
  (ct = 0 \/ card_type ct) /\
  dev' = mkDev FALSE (cardtype dev) (last_sector dev) /\
  exists evs, trace w' = trace w ++ EvInit :: evs /\ Forall settling evs.
Proof.
  unfold init_attempt. unfold bind at 1. cbn [SPI_Init call].
  unfold SPI_CS_High, SPI_Freq_Low, SPI_Timer_On, SPI_Timer_Off.
  intros E.
  match type of E with
  | ?m ?w0 = _ =>
      assert (S : sat settling
                    (fun r => (fst r = 0 \/ card_type (fst r)) /\
                              snd r = mkDev FALSE (cardtype dev)
                                        (last_sector dev)) m)
  end.
  { do 10 (apply sat_bind_any; [solve [repeat sat_any_step] | intros ?]).
    apply (sat_bind settling (fun ct => ct = 0 \/ card_type ct)).
    - cbv zeta. repeat sat_ct_step.
    - intros c Hc. apply sat_ret. split; [exact Hc | reflexivity]. }
  destruct (S _ _ _ E) as ([Hct Hdev] & evs & T & F).
  cbn [fst snd] in Hct, Hdev. split; [exact Hct |]. split; [exact Hdev |].
  exists evs. split; [| exact F].
  rewrite T. cbn [emit trace]. rewrite <- app_assoc. reflexivity.
Qed.

Lemma settling_no_init (evs : list event) :
  Forall settling evs -> filter is_init evs = [].
Proof.
  induction 1 as [| e evs He _ IH]; [reflexivity |].
  cbn [filter]. destruct e; try contradiction; cbn [is_init]; exact IH.
Qed.

Lemma not_init_no_init (evs : list event) :
  Forall not_init evs -> filter is_init evs = [].
Proof.
  induction 1 as [| e evs He _ IH]; [reflexivity |].
  cbn [filter]. destruct e; try contradiction; cbn [is_init]; exact IH.
Qed.

Lemma count_init_app (a b : list event) :
  count_init (a ++ b) = (count_init a + count_init b)%nat.
Proof. unfold count_init. rewrite filter_app, length_app. reflexivity. Qed.

Lemma init_loop_log (fuel : nat) :
  forall (init_trys ct : Z) (dev dev' : SD_DEV) (ct' : Z) (w w' : spi),
    0 <= init_trys <= 3 ->
    init_loop fuel init_trys ct dev w = Some ((ct', dev'), w') ->
    exists evs,
      trace w' = trace w ++ evs /\ Forall attempting evs /\
      Z.of_nat (count_init evs) <= 3 - init_trys /\
      (ct' = 0 -> Z.of_nat (count_init evs) = 3 - init_trys) /\
      (ct <> 0 \/ init_trys = 3 -> ct' = ct /\ dev' = dev /\ evs = []) /\
      (ct = 0 -> ct' = 0 \/ card_type ct') /\
      (ct = 0 -> init_trys < 3 ->
       (1 <= count_init evs)%nat /\
       dev' = mkDev FALSE (cardtype dev) (last_sector dev)).
Proof.
  induction fuel as [| fuel IH]; intros init_trys ct dev dev' ct' w w' Ht E;
    [discriminate |].
  cbn [init_loop] in E. unfold SD_INIT_TRYS in E.
  destruct (Z.eqb_spec init_trys 3) as [E3 | N3]; cbn [negb andb] in E.
  { injection E as <- <- <-. exists []. rewrite app_nil_r.
    split; [reflexivity |]. split; [constructor |].
    change (count_init []) with 0%nat.
    split; [lia |]. split; [intros _; lia |].
    split; [auto |]. split; [auto |]. intros _ H. lia. }
  destruct (Z.eqb_spec ct 0) as [E0 | N0].
  2: { injection E as <- <- <-. exists []. rewrite app_nil_r.
       split; [reflexivity |]. split; [constructor |].
       change (count_init []) with 0%nat.
       split; [lia |]. split; [intros H; contradiction |].
       split; [auto |]. split; intros H; contradiction. }
  unfold bind in E.
  destruct (init_attempt dev w) as [[[ct1 dev1] w1] |] eqn:Ea; [| discriminate].
  cbn [fst snd] in E.
  destruct (init_attempt_log _ _ _ _ _ Ea) as (Hct1 & Hdev1 & e1 & T1 & F1).
  unfold u8 in E. rewrite (Z.mod_small (init_trys + 1)) in E by lia.
  assert (Ht' : 0 <= init_trys + 1 <= 3) by lia.
  destruct (IH _ _ _ _ _ _ _ Ht' E)
    as (e2 & T2 & F2 & Hle & Hz & Hkeep & Hty & Hone).
  exists ((EvInit :: e1) ++ e2).
  assert (Hc1 : count_init (EvInit :: e1) = 1%nat).
  { unfold count_init. cbn [filter is_init]. rewrite settling_no_init by exact F1.
    reflexivity. }
  rewrite count_init_app, Hc1.
  split; [rewrite T2, T1, app_assoc; reflexivity |].
  split.
  { apply Forall_app. split; [| exact F2]. constructor; [exact I |].
    eapply Forall_impl; [| exact F1]. intros []; simpl; tauto. }
  split; [lia |]. split; [intros Hz'; specialize (Hz Hz'); lia |].
  split; [intros [H | H]; [contradiction | lia] |].
  split.
  { intros _. destruct (Z.eq_dec ct1 0) as [Z1 | NZ1].
    - apply Hty. exact Z1.
    - destruct (Hkeep (or_introl NZ1)) as (-> & _ & _).
      destruct Hct1 as [? | ?]; [contradiction | right; assumption]. }
  intros _ _. split; [lia |].
  destruct (Z.eq_dec ct1 0) as [Z1 | NZ1].
  - destruct (Z.eq_dec (init_trys + 1) 3) as [L | NL].
    + destruct (Hkeep (or_intror L)) as (_ & -> & _). exact Hdev1.
    + assert (Hlt : init_trys + 1 < 3) by lia.
      destruct (Hone Z1 Hlt) as [_ ->]. rewrite Hdev1. reflexivity.
  - destruct (Hkeep (or_introl NZ1)) as (_ & -> & _). exact Hdev1.
Qed.

Lemma sat_SD_Sectors (dev : SD_DEV) : sat not_init any (__SD_Sectors dev).
Proof.
  unfold __SD_Sectors, SPI_Release.
  apply sat_bind_any; [solve [repeat sat_any_step] | intros r].
  destruct (r =? 0); [| apply sat_ret; exact I].
  apply sat_bind_any.
  { intros w a w' E. unfold wait_not_ff in E. revert E.
    apply sat_while_do; repeat sat_any_step. }
  intros _. repeat sat_any_step.
Qed.

Lemma SD_Init_inv (dev dev' : SD_DEV) (res : SDRESULTS) (w w' : spi) :
  SD_Init dev w = Some ((res, dev'), w') ->
  exists ct dev1 w1 evs,
    init_loop (S (Z.to_nat SD_INIT_TRYS)) 0 0 dev w = Some ((ct, dev1), w1) /\
    trace w1 = trace w ++ evs /\ Forall attempting evs /\
    (1 <= count_init evs <= 3)%nat /\
    (ct = 0 -> count_init evs = 3%nat) /\
    dev1 = mkDev FALSE (cardtype dev) (last_sector dev) /\
    ((ct = 0 /\ res = SD_NOINIT /\ dev' = dev1 /\ w' = emit EvRelease w1) \/
     (card_type ct /\ res = SD_OK /\
      exists ss w2 evs2,
        __SD_Sectors (mkDev TRUE ct (last_sector dev1)) w1 = Some (ss, w2) /\
        trace w2 = trace w1 ++ evs2 /\ Forall not_init evs2 /\
        dev' = mkDev TRUE ct (u16 (ss - 1)) /\
        w' = emit EvRelease (emit EvFreqHigh w2))).
Proof.
  intros E. unfold SD_Init in E. unfold bind at 1 in E.
  destruct (init_loop (S (Z.to_nat SD_INIT_TRYS)) 0 0 dev w)
    as [[[ct dev1] w1] |] eqn:El; [| discriminate].
  cbn [fst snd] in E.
  assert (H03 : 0 <= 0 <= 3) by lia.
  destruct (init_loop_log _ _ _ _ _ _ _ _ H03 El)
    as (evs & T & F & Hle & Hz & _ & Hty & Hone).
  assert (Hlt : 0 < 3) by lia.
  destruct (Hone eq_refl Hlt) as [H1 Hdev].
  specialize (Hty eq_refl).
  exists ct, dev1, w1, evs.
  split; [reflexivity |]. split; [exact T |]. split; [exact F |].
  split; [lia |]. split; [intros Hc; specialize (Hz Hc); lia |].
  split; [exact Hdev |].
  destruct (Z.eqb_spec ct 0) as [E0 | N0]; cbn [negb] in E.
  - left. cbv [bind ret SPI_Release call] in E. inversion E; subst. auto.
  - right. destruct Hty as [? | Hty]; [contradiction |].
    split; [exact Hty |].
    cbn [mount cardtype last_sector] in E.
    unfold bind at 1 in E. unfold bind at 1 in E.
    destruct (__SD_Sectors (mkDev TRUE ct (last_sector dev1)) w1)
      as [[ss w2] |] eqn:Es; [| discriminate].
    destruct (sat_SD_Sectors _ _ _ _ Es) as (_ & evs2 & T2 & F2).
    cbv [bind ret SPI_Release __SD_Speed_Transfer SPI_Freq_High call HIGH] in E.
    cbn [Z.eqb Pos.eqb] in E. inversion E; subst.
    split; [reflexivity |].
    exists ss, w2, evs2. auto.
Qed.

(** X10.  Whenever initialization returns, it returns SD_OK or SD_NOINIT.
    With SD_OK the session is mounted, its card type is one of MMC, SD
    version 1, SD version 2 and SD version 2 with block addressing, and
    [last_sector] is a 16-bit value.  With SD_NOINIT the session is marked
    unmounted and its card type and [last_sector] are those it had
    before. *)
Theorem sd_init_outcome (dev dev' : SD_DEV) (res : SDRESULTS) (w w' : spi) :
  SD_Init dev w = Some ((res, dev'), w') ->
  (res = SD_OK /\ mount dev' = TRUE /\ card_type (cardtype dev') /\
   0 <= last_sector dev' < 65536) \/
  (res = SD_NOINIT /\
   dev' = mkDev FALSE (cardtype dev) (last_sector dev)).
Proof.
  intros E.
  destruct (SD_Init_inv _ _ _ _ _ E)
    as (ct & dev1 & w1 & evs & _ & _ & _ & _ & _ & Hdev & H).
  destruct H as [(_ & -> & -> & _) | (Hty & -> & ss & w2 & evs2 & _ & _ & _ & -> & _)].
  - right. auto.
  - left. cbn [mount cardtype last_sector]. repeat split; auto;
      unfold u16; dlia.
Qed.

Lemma sd_init_outcome_witness :
  (exists w', SD_Init (mkDev TRUE SDCT_SD2 77) idle
              = Some ((SD_NOINIT, mkDev FALSE SDCT_SD2 77), w')) /\
  (exists dev' w',
     SD_Init (mkDev FALSE 0 0) (mkSpi sd1_negotiation sd1_timer [])
     = Some ((SD_OK, dev'), w') /\ mount dev' = TRUE).
Proof.
  split.
  - eassert (E : SD_Init (mkDev TRUE SDCT_SD2 77) idle = Some ((_, _), _))
      by (vm_compute; reflexivity).
    destruct (sd_init_outcome _ _ _ _ _ E) as [(H & _) | (_ & H)];
      [discriminate |].
    eexists. exact E.
  - eassert (E : SD_Init (mkDev FALSE 0 0) (mkSpi sd1_negotiation sd1_timer [])
                 = Some ((_, _), _))
      by (vm_compute; reflexivity).
    destruct (sd_init_outcome _ _ _ _ _ E) as [(_ & H & _) | (H & _)];
      [| discriminate].
    eexists _, _. split; [exact E | exact H].
Defined.

(** X11.  Whenever initialization returns it has made between one and
    three passes, each opened by [SPI_Init], and its last call is
    [SPI_Release].  SD_NOINIT comes only after all three passes and
    without a switch to the fast clock; SD_OK switches to the fast clock
    once, right before the release. *)
Theorem sd_init_attempts (dev dev' : SD_DEV) (res : SDRESULTS) (w w' : spi) :
  SD_Init dev w = Some ((res, dev'), w') ->
  exists evs,
    trace w' = trace w ++ evs ++ [EvRelease] /\
    (1 <= count_init evs <= 3)%nat /\
    (res = SD_NOINIT ->
     count_init evs = 3%nat /\ Forall attempting evs) /\
    (res = SD_OK ->
     exists pre, evs = pre ++ [EvFreqHigh] /\ ~ In EvFreqHigh pre).
Proof.
  intros E.
  destruct (SD_Init_inv _ _ _ _ _ E)
    as (ct & dev1 & w1 & evs & _ & T & F & Hc & Hz & _ & H).
  destruct H as [(Hct & -> & _ & ->) |
                 (Hty & -> & ss & w2 & evs2 & _ & T2 & F2 & _ & ->)].
  - exists evs. split; [cbn [emit trace]; rewrite T, <- app_assoc; reflexivity |].
    split; [exact Hc |]. split; [auto | discriminate].
  - exists ((evs ++ evs2) ++ [EvFreqHigh]). split.
    { cbn [emit trace]. rewrite T2, T, <- !app_assoc. reflexivity. }
    split.
    { assert (Hn : count_init ((evs ++ evs2) ++ [EvFreqHigh]) = count_init evs).
      { rewrite !count_init_app. unfold count_init at 2 3.
        rewrite (not_init_no_init evs2 F2). cbn [filter is_init length]. lia. }
      rewrite Hn. exact Hc. }
    split; [discriminate |]. intros _. exists (evs ++ evs2).
    split; [reflexivity |]. intros Hin. apply in_app_or in Hin.
    destruct Hin as [Hin | Hin].
    + rewrite Forall_forall in F. apply (F _ Hin).
    + rewrite Forall_forall in F2. apply (F2 _ Hin).
Qed.

Lemma sd_init_attempts_witness :
  (exists dev' w' evs,
     SD_Init (mkDev FALSE 0 0) idle = Some ((SD_NOINIT, dev'), w') /\
     trace w' = evs ++ [EvRelease] /\ count_init evs = 3%nat) /\
  (exists dev' w' pre,
     SD_Init (mkDev FALSE 0 0) (mkSpi sd1_negotiation sd1_timer [])
     = Some ((SD_OK, dev'), w') /\
     trace w' = pre ++ [EvFreqHigh] ++ [EvRelease]).
Proof.
  split.
  - eassert (E : SD_Init (mkDev FALSE 0 0) idle = Some ((SD_NOINIT, _), _))
      by (vm_compute; reflexivity).
    destruct (sd_init_attempts _ _ _ _ _ E) as (evs & T & _ & Hn & _).
    destruct (Hn eq_refl) as [Hc _].
    eexists _, _, evs. split; [exact E |]. split; [exact T | exact Hc].
  - eassert (E : SD_Init (mkDev FALSE 0 0) (mkSpi sd1_negotiation sd1_timer [])
                 = Some ((SD_OK, _), _))
      by (vm_compute; reflexivity).
    destruct (sd_init_attempts _ _ _ _ _ E) as (evs & T & _ & _ & Ho).
    destruct (Ho eq_refl) as (pre & -> & _).
    eexists _, _, pre. split; [exact E |].
    rewrite T. cbn [trace app]. rewrite <- app_assoc. reflexivity.
Defined.

(** ** A read past the block *)

Lemma skip_loop_wrap (fuel n : nat) (w : spi) :
  Z.of_nat n = 65535 -> (n <= fuel)%nat ->
  skip_loop (S fuel) 0 w = Some (tt, burst (repeat 0xFF (S n)) w).
Proof.
  intros Hn Hf. cbn [skip_loop]. unfold bind at 1. cbn [SPI_RW].
  change (u16 (0 - 1)) with 65535. cbn [Z.eqb negb].
  rewrite skip_loop_spec by lia.
  replace (Z.to_nat 65535) with n by lia.
  cbn [repeat]. rewrite burst_cons. reflexivity.
Qed.

Lemma read_data_past_block (dat : list Z) (ofs cnt : Z) (w : spi) :
  0 <= ofs <= 65535 -> 1 <= cnt <= 65535 -> 514 <= ofs + cnt <= 66049 ->
  read_data dat ofs cnt w
  = Some (store_all 0 (clocked (Z.to_nat cnt) (skipn (Z.to_nat ofs) (rx w))) dat,
          burst (repeat 0xFF (Z.to_nat 66050)) w).
Proof.
  intros Ho Hc Hs. unfold read_data, SD_BLK_SIZE.
  assert (Hu : (Z.of_nat u16_iters = 65536)) by (unfold u16_iters; lia).
  assert (Hskip :
    (if negb (ofs =? 0) then skip_loop u16_iters ofs else ret tt) w
    = Some (tt, burst (repeat 0xFF (Z.to_nat ofs)) w)).
  { destruct (Z.eqb_spec ofs 0) as [-> | N]; cbn [negb].
    - cbn [Z.to_nat repeat]. rewrite burst_nil. reflexivity.
    - apply skip_loop_spec; lia. }
  rewrite (bind_Some _ _ _ _ _ Hskip).
  erewrite bind_Some by (apply recv_loop_spec; lia).
  rewrite burst_idle_rx.
  set (W := burst (repeat 0xFF (Z.to_nat cnt))
              (burst (repeat 0xFF (Z.to_nat ofs)) w)).
  assert (Hrem : skip_loop u16_iters (u16 (512 + 2 - ofs - cnt)) W
                 = Some (tt, burst (repeat 0xFF (Z.to_nat (66050 - ofs - cnt))) W)).
  { destruct (Z.eq_dec (ofs + cnt) 514) as [E | N].
    - replace (u16 (512 + 2 - ofs - cnt)) with 0
        by (unfold u16; replace (512 + 2 - ofs - cnt) with 0 by lia;
            reflexivity).
      remember (Z.to_nat 65535) as n eqn:Hn.
      assert (Hn' : Z.of_nat n = 65535) by lia.
      replace u16_iters with (S n) by lia.
      replace (Z.to_nat (66050 - ofs - cnt)) with (S n) by lia.
      apply skip_loop_wrap; [exact Hn' | lia].
    - replace (u16 (512 + 2 - ofs - cnt)) with (66050 - ofs - cnt)
        by (unfold u16; dlia).
      apply skip_loop_spec; lia. }
  rewrite (bind_Some _ _ _ _ _ Hrem). unfold W.
  rewrite <- !burst_app, <- !repeat_app.
  replace (Z.to_nat ofs + (Z.to_nat cnt + Z.to_nat (66050 - ofs - cnt)))%nat
    with (Z.to_nat 66050) by lia.
  reflexivity.
Qed.

(** X12.  The read does not check that offset + count stays within the
    block and its CRC.  For 514 <= ofs + cnt <= 66049 the 16-bit count of
    the bytes to discard wraps around: the read still returns SD_OK, and
    does so after 66050 exchanges behind the token instead of 514, having
    stored [cnt] of the bytes that followed. *)
Theorem read_past_block (dev : SD_DEV) (dat : list Z) (sector ofs cnt : Z)
  (w w1 w2 : spi) :
  0 <= ofs <= 65535 -> 1 <= cnt <= 65535 -> 514 <= ofs + cnt <= 66049 ->
  (Z.to_nat cnt <= length dat)%nat ->
  sector <= last_sector dev ->
  __SD_Send_Cmd CMD17 (u32 (sector * SD_BLK_SIZE)) w = Some (0, w1) ->
  wait_token w1 = Some (0xFE, w2) ->
  exists w',
    SD_Read dev dat sector ofs cnt w
    = Some ((SD_OK,
             clocked (Z.to_nat cnt) (skipn (Z.to_nat ofs) (rx w2))
             ++ skipn (Z.to_nat cnt) dat), w') /\
    sent (trace w') = sent (trace w2) ++ repeat 0xFF (Z.to_nat 66050) /\
    rx w' = skipn (Z.to_nat 66050) (rx w2).
Proof.
  intros Ho Hc Hs Hlen Hsec E1 E2.
  exists (emit EvRelease (burst (repeat 0xFF (Z.to_nat 66050)) w2)).
  split; [| split].
  - rewrite (SD_Read_accepted dev dat sector ofs cnt w w1 w2 0xFE)
      by (assumption || lia).
    cbn [Z.eqb Pos.eqb]. rewrite read_data_past_block by assumption.
    rewrite store_all_front by (rewrite clocked_length; exact Hlen).
    rewrite clocked_length. reflexivity.
  - cbn [emit trace]. rewrite sent_app, sent_burst. cbn [sent flat_map].
    apply app_nil_r.
  - cbn [emit rx]. apply burst_idle_rx.
Qed.

Lemma read_past_block_witness :
  exists w',
    SD_Read (mkDev TRUE SDCT_SD1 9) [0; 0; 0; 0] 0 511 4
      (mkSpi (reply 0 ++ [0xFE] ++ repeat 0x11 511 ++ [0x22; 0xC1; 0xC2])
             [] [])
    = Some ((SD_OK, [0x22; 0xC1; 0xC2; 0xFF]), w').
Proof.
  set (dev := mkDev TRUE SDCT_SD1 9).
  set (w := mkSpi (reply 0 ++ [0xFE] ++ repeat 0x11 511 ++ [0x22; 0xC1; 0xC2])
                  [] []).
  assert (Ho : 0 <= 511 <= 65535) by lia.
  assert (Hc : 1 <= 4 <= 65535) by lia.
  assert (Hs : 514 <= 511 + 4 <= 66049) by lia.
  assert (Hl : (Z.to_nat 4 <= length [0; 0; 0; 0])%nat) by (cbn; lia).
  assert (Hsec : 0 <= last_sector dev) by (cbn; lia).
  eassert (E1 : __SD_Send_Cmd CMD17 (u32 (0 * SD_BLK_SIZE)) w = Some (0, _))
    by (vm_compute; reflexivity).
  match type of E1 with
  | _ = Some (_, ?w1) =>
      eassert (E2 : wait_token w1 = Some (0xFE, _)) by (vm_compute; reflexivity)
  end.
  destruct (read_past_block dev [0; 0; 0; 0] 0 511 4 w _ _
              Ho Hc Hs Hl Hsec E1 E2) as (w' & E & _).
  exists w'. exact E.
Defined.

(** ** A line that no card drives *)

Lemma quiet_ret {A} (Q : A -> Prop) (a : A) : Q a -> quiet Q (ret a).
Proof. intros Hq w a' w' Hrx E. injection E as <- <-. auto. Qed.

Lemma quiet_bind {A B} (R : A -> Prop) (Q : B -> Prop) (m : io A)
  (k : A -> io B) :
  quiet R m -> (forall a, R a -> quiet Q (k a)) -> quiet Q (bind m k).
Proof.
  intros Hm Hk w b w' Hrx E. unfold bind in E.
  destruct (m w) as [[a w1] |] eqn:Em; [| discriminate].
  destruct (Hm _ _ _ Hrx Em) as [Hrx1 Ha].
  apply (Hk a Ha _ _ _ Hrx1 E).
Qed.

Lemma quiet_any {A} (Q : A -> Prop) (m : io A) : quiet Q m -> quiet any m.
Proof.
  intros H w a w' Hrx E. destruct (H _ _ _ Hrx E). split; [assumption | exact I].
Qed.

Lemma quiet_bind_any {A B} (Q : B -> Prop) (m : io A) (k : A -> io B) :
  quiet any m -> (forall a, quiet Q (k a)) -> quiet Q (bind m k).
Proof. intros Hm Hk. apply (quiet_bind any Q); auto. Qed.

Lemma quiet_call (e : event) : quiet any (call e).
Proof.
  intros w a w' Hrx E. injection E as <- <-. split; [exact Hrx | exact I].
Qed.

Lemma quiet_SPI_RW (d : Z) : quiet (fun b => b = 0xFF) (SPI_RW d).
Proof.
  intros w a w' Hrx E. injection E as <- <-.
  cbn [rw_state rx]. rewrite Hrx. split; reflexivity.
Qed.

Lemma quiet_SPI_Timer_Status : quiet any SPI_Timer_Status.
Proof.
  intros w a w' Hrx E. injection E as <- <-. split; [exact Hrx | exact I].
Qed.

Lemma quiet_do_while {A} (R : A -> Prop) (body : io A) (cond : A -> io bool)
  (fuel : nat) :
  quiet R body -> (forall x, quiet any (cond x)) ->
  quiet R (do_while fuel body cond).
Proof.
  intros Hb Hc. induction fuel as [| fuel IH];
    [intros w a w' _ E; discriminate |].
  cbn [do_while]. apply (quiet_bind R R); [exact Hb | intros x Hx].
  apply quiet_bind_any; [apply Hc | intros c].
  destruct c; [exact IH | apply quiet_ret; exact Hx].
Qed.

Lemma quiet_while_do (cond : io bool) (body : io unit) (fuel : nat) :
  quiet any cond -> quiet any body -> quiet any (while_do fuel cond body).
Proof.
  intros Hc Hb. induction fuel as [| fuel IH];
    [intros w a w' _ E; discriminate |].
  cbn [while_do]. apply quiet_bind_any; [exact Hc | intros c].
  destruct c; [| apply quiet_ret; exact I].
  apply quiet_bind_any; [exact Hb | intros _; exact IH].
Qed.

Lemma quiet_timed {A} (Q : A -> Prop) (loop : nat -> io A) :
  (forall fuel, quiet Q (loop fuel)) -> quiet Q (timed loop).
Proof. intros H w a w' Hrx E. unfold timed in E. apply (H _ _ _ _ Hrx E). Qed.

Lemma quiet_for_idx (from : Z) (n : nat) (body : Z -> io unit) :
  (forall i, quiet any (body i)) -> quiet any (for_idx from n body).
Proof.
  intros Hb. revert from. induction n as [| n IH]; intros from; cbn [for_idx].
  - apply quiet_ret. exact I.
  - apply quiet_bind_any; [apply Hb | intros _; apply IH].
Qed.

Lemma quiet_poll (again : Z -> bool) : quiet (fun b => b = 0xFF) (poll again).
Proof.
  unfold poll. apply quiet_timed. intros fuel. apply quiet_do_while.
  - apply quiet_SPI_RW.
  - intros x. destruct (again x);
      [apply quiet_SPI_Timer_Status | apply quiet_ret; exact I].
Qed.

Lemma quiet_send_cmd_body (cmd arg : Z) :
  quiet (fun r => r = 0xFF) (send_cmd_body cmd arg).
Proof.
  unfold send_cmd_body, __SD_Deassert, __SD_Assert, SPI_CS_High, SPI_CS_Low,
    SPI_Timer_On, SPI_Timer_Off.
  repeat (apply quiet_bind_any;
          [first [apply quiet_call | eapply quiet_any; apply quiet_SPI_RW]
          | intros _]).
  apply (quiet_bind (fun r => r = 0xFF)); [apply quiet_poll | intros res Hres].
  apply quiet_bind_any; [apply quiet_call | intros _].
  apply quiet_ret. exact Hres.
Qed.

Lemma quiet_send_cmd (cmd arg : Z) :
  quiet (fun r => r = 0xFF) (__SD_Send_Cmd cmd arg).
Proof.
  destruct (Z.eq_dec (Z.land cmd 0x80) 0) as [E | N].
  - rewrite send_cmd_plain by assumption. apply quiet_send_cmd_body.
  - rewrite send_cmd_app by assumption.
    apply (quiet_bind (fun r => r = 0xFF)); [apply quiet_send_cmd_body |].
    intros res ->. cbn [Z.gtb Z.compare Pos.compare Pos.compare_cont].
    apply quiet_ret. reflexivity.
Qed.

Ltac quiet_any_step :=
  match goal with
  | |- quiet any (bind _ _) => apply quiet_bind_any; [| intros ?]
  | |- quiet any (ret _) => apply quiet_ret; exact I
  | |- quiet any (call _) => apply quiet_call
  | |- quiet any (SPI_RW _) => eapply quiet_any; apply quiet_SPI_RW
  | |- quiet any SPI_Timer_Status => apply quiet_SPI_Timer_Status
  | |- quiet any (__SD_Send_Cmd _ _) => eapply quiet_any; apply quiet_send_cmd
  | |- quiet any (timed _) => apply quiet_timed; intros ?
  | |- quiet any (while_do _ _ _) => apply quiet_while_do
  | |- quiet any (for_idx _ _ _) => apply quiet_for_idx; intros ?
  | |- quiet any (if ?c then _ else _) => destruct c
  end.

Lemma quiet_init_attempt (dev : SD_DEV) :
  quiet (fun r => fst r = 0) (init_attempt dev).
Proof.
  unfold init_attempt, SPI_Init, SPI_CS_High, SPI_Freq_Low, SPI_Timer_On,
    SPI_Timer_Off.
  do 10 (apply quiet_bind_any; [solve [repeat quiet_any_step] | intros ?]).
  apply (quiet_bind (fun r => r = 0xFF)); [apply quiet_send_cmd | intros r ->].
  cbn [Z.eqb Pos.eqb].
  apply (quiet_bind (fun ct => ct = 0)); [apply quiet_ret; reflexivity |].
  intros ct ->. apply quiet_ret. reflexivity.
Qed.

Lemma quiet_init_loop (fuel : nat) (init_trys : Z) (dev : SD_DEV) :
  quiet (fun r => fst r = 0) (init_loop fuel init_trys 0 dev).
Proof.
  revert init_trys dev. induction fuel as [| fuel IH]; intros init_trys dev;
    [intros w a w' _ E; discriminate |].
  cbn [init_loop].
  destruct (negb (init_trys =? SD_INIT_TRYS) && (0 =? 0));
    [| apply quiet_ret; reflexivity].
  apply (quiet_bind (fun r => fst r = 0)); [apply quiet_init_attempt |].
  intros [ct dev1] Hct. cbn [fst snd] in *. subst ct. apply IH.
Qed.

(** X13.  On a line that no card drives, every byte read being 0xFF,
    initialization returns SD_NOINIT whatever the timer answers: it is
    total there, every command gets the response 0xFF, and the session
    comes back unmounted with its card type and [last_sector] as they
    were. *)
Theorem sd_init_no_card (dev : SD_DEV) (timer : list bool)
  (log : list event) :
  exists w',
    SD_Init dev (mkSpi [] timer log)
    = Some ((SD_NOINIT, mkDev FALSE (cardtype dev) (last_sector dev)), w') /\
    rx w' = [].
Proof.
  set (w := mkSpi [] timer log).
  assert (H03 : 0 <= 0 <= SD_INIT_TRYS) by (unfold SD_INIT_TRYS; lia).
  assert (Hf : SD_INIT_TRYS - 0 < Z.of_nat (S (Z.to_nat SD_INIT_TRYS)))
    by (unfold SD_INIT_TRYS; lia).
  destruct (init_loop_runs (S (Z.to_nat SD_INIT_TRYS)) 0 0 dev H03 Hf w)
    as ([ct dev1] & w1 & El & _).
  destruct (quiet_init_loop _ _ _ w _ _ eq_refl El) as [Hrx Hct].
  cbn [fst] in Hct. subst ct.
  assert (H03' : 0 <= 0 <= 3) by lia.
  destruct (init_loop_log _ _ _ _ _ _ _ _ H03' El)
    as (evs & _ & _ & _ & _ & _ & _ & Hone).
  assert (Hlt : 0 < 3) by lia.
  destruct (Hone eq_refl Hlt) as [_ Hdev].
  exists (emit EvRelease w1). split; [| exact Hrx].
  unfold SD_Init. rewrite (bind_Some _ _ _ _ _ El). cbn [fst snd Z.eqb negb].
  rewrite Hdev. reflexivity.
Qed.

(** X14.  On a line that no card drives a read or a write that passes the
    parameter check returns SD_ERROR: the response to its command is the
    0xFF of a timeout, no data phase follows, and the read leaves the
    destination as it was. *)
Theorem sd_io_no_card (dev : SD_DEV) (dat : list Z) (sector ofs cnt : Z)
  (timer : list bool) (log : list event) :
  sector <= last_sector dev -> cnt <> 0 ->
  exists w1,
    __SD_Send_Cmd CMD17 (u32 (sector * SD_BLK_SIZE)) (mkSpi [] timer log)
    = Some (0xFF, w1) /\
    SD_Read dev dat sector ofs cnt (mkSpi [] timer log)
    = Some ((SD_ERROR, dat), emit EvRelease w1) /\
    exists w2,
      __SD_Send_Cmd CMD24 (u32 (sector * SD_BLK_SIZE)) (mkSpi [] timer log)
      = Some (0xFF, w2) /\
      SD_Write dev dat sector (mkSpi [] timer log) = Some (SD_ERROR, w2).
Proof.
  intros Hs Hc. set (w := mkSpi [] timer log).
  destruct (steady_send_cmd CMD17 (u32 (sector * SD_BLK_SIZE)) w)
    as (r & w1 & E1 & _).
  destruct (quiet_send_cmd _ _ w _ _ eq_refl E1) as [_ ->].
  destruct (steady_send_cmd CMD24 (u32 (sector * SD_BLK_SIZE)) w)
    as (r & w2 & E2 & _).
  destruct (quiet_send_cmd _ _ w _ _ eq_refl E2) as [_ ->].
  exists w1. split; [exact E1 |]. split.
  - unfold SD_Read.
    destruct (Z.gtb_spec sector (last_sector dev)); [lia |].
    destruct (Z.eqb_spec cnt 0); [contradiction |]. cbn [orb].
    rewrite (bind_Some _ _ _ _ _ E1). reflexivity.
  - exists w2. split; [exact E2 |]. unfold SD_Write.
    destruct (Z.gtb_spec sector (last_sector dev)); [lia |].
    rewrite (bind_Some _ _ _ _ _ E2). reflexivity.
Qed.

Lemma sd_io_no_card_witness :
  exists w1 w2,
    SD_Read (mkDev TRUE SDCT_SD1 9) [1; 2] 3 0 2 (mkSpi [] [true; true] [])
    = Some ((SD_ERROR, [1; 2]), w1) /\
    SD_Write (mkDev TRUE SDCT_SD1 9) [] 3 (mkSpi [] [true; true] [])
    = Some (SD_ERROR, w2).
Proof.
  assert (Hs : 3 <= last_sector (mkDev TRUE SDCT_SD1 9)) by (cbn; lia).
  assert (Hc : 2 <> 0) by lia.
  destruct (sd_io_no_card (mkDev TRUE SDCT_SD1 9) [1; 2] 3 0 2 [true; true] []
              Hs Hc) as (w1 & _ & Er & w2 & _ & _).
  destruct (sd_io_no_card (mkDev TRUE SDCT_SD1 9) [] 3 0 2 [true; true] []
              Hs Hc) as (_ & _ & _ & w2' & _ & Ew).
  exists (emit EvRelease w1), w2'. split; [exact Er | exact Ew].
Defined.
